(** * Spotify recently-played ingestion: a shallow embedding

    The repository holds two near-identical Lambda modules,
    [get_spotify_api_data/lambda_function.py] and
    [lambda_spotify_get_user_recent_played.py].  Both define
    [get_spotify_token], [get_recent_tracks], [save_to_s3] and
    [lambda_handler]; they differ in the storage key and in three
    diagnostic [print] calls.  The embedding below takes the module as a
    parameter and threads an explicit state (the object store and the trace
    of external effects) through a small state-and-exception monad. *)

From Stdlib Require Import ZArith String Ascii List DecimalString Lia.
From stdpp Require Import base gmap strings list.

Set Warnings "-register-all".

Open Scope string_scope.
Open Scope Z_scope.

(** ** Python values *)

(** A Python [float] is identified by the text [float.__repr__] gives for
    it; the three non-finite values are kept apart because [json.dumps]
    spells them differently. *)
Inductive pyfloat :=
  | FNaN
  | FInf
  | FNegInf
  | FFinite (repr : string).

(** The values that [json.loads] produces and [json.dumps] accepts.  A
    [dict] keeps insertion order, hence the association list; a [str] is a
    sequence of code points below 256, one per [ascii]. *)
Inductive pyval :=
  | PNone
  | PBool (b : bool)
  | PInt (z : Z)
  | PFloat (f : pyfloat)
  | PStr (s : string)
  | PList (l : list pyval)
  | PDict (d : list (string * pyval)).

(** [isinstance(v, dict)] *)
Definition isinstance_dict (v : pyval) : bool :=
  match v with PDict _ => true | _ => false end.

Fixpoint dict_lookup (k : string) (d : list (string * pyval)) : option pyval :=
  match d with
  | [] => None
  | (k', v) :: d' => if String.eqb k k' then Some v else dict_lookup k d'
  end.

(** [k in d] *)
Definition dict_contains (k : string) (d : list (string * pyval)) : bool :=
  match dict_lookup k d with Some _ => true | None => false end.

(** [d[k] = v]: an existing key keeps its position, a new key goes last. *)
Fixpoint dict_setitem (k : string) (v : pyval) (d : list (string * pyval))
  : list (string * pyval) :=
  match d with
  | [] => [(k, v)]
  | (k', v') :: d' =>
      if String.eqb k k' then (k, v) :: d' else (k', v') :: dict_setitem k v d'
  end.

(** [type(v).__name__] *)
Definition type_name (v : pyval) : string :=
  match v with
  | PNone => "NoneType"
  | PBool _ => "bool"
  | PInt _ => "int"
  | PFloat _ => "float"
  | PStr _ => "str"
  | PList _ => "list"
  | PDict _ => "dict"
  end.

(** ** Text helpers *)

(** [str(n)] for an [int]. *)
Definition str_int (z : Z) : string := NilZero.string_of_int (Z.to_int z).

Definition digit (n : Z) : ascii := ascii_of_N (48 + Z.to_N (n mod 10)).

(** [format(n, '02d')] and [format(n, '04d')] for [0 <= n]. *)
Definition zfill2 (n : Z) : string :=
  String (digit (n / 10)) (String (digit n) "").
Definition zfill4 (n : Z) : string :=
  String (digit (n / 1000)) (String (digit (n / 100)) (zfill2 n)).

Definition hex_digit (n : N) : ascii :=
  if (n <? 10)%N then ascii_of_N (48 + n) else ascii_of_N (87 + n).

(** ['\\u{0:04x}'.format(n)] for a code point below 256. *)
Definition escape_u (c : ascii) : string :=
  let n := N_of_ascii c in
  "\u00" ++ String (hex_digit (n / 16)) (String (hex_digit (n mod 16)) "").

(** [repr(s)] for a [str] made of printable ASCII without quotes or
    backslashes, the only kind the program ever passes ('access_token'). *)
Definition repr_str (s : string) : string := "'" ++ s ++ "'".

(** [str(x)] inside an f-string for a configuration value that
    [os.getenv] may have left at [None]. *)
Definition format_opt (o : option string) : string :=
  match o with Some s => s | None => "None" end.

(** ** [json.dumps] *)

(** One character of [json.encoder.py_encode_basestring_ascii]: printable
    ASCII other than the quote and the backslash stands for itself, the
    seven short escapes are used where they exist, anything else becomes
    [\uXXXX]. *)
Definition escape_char (c : ascii) : string :=
  let n := N_of_ascii c in
  if (n =? 92)%N then "\\"
  else if (n =? 34)%N then String "\" (String c "")
  else if (n =? 8)%N then "\b"
  else if (n =? 12)%N then "\f"
  else if (n =? 10)%N then "\n"
  else if (n =? 13)%N then "\r"
  else if (n =? 9)%N then "\t"
  else if ((32 <=? n) && (n <=? 126))%N then String c ""
  else escape_u c.

Fixpoint escape_ascii (s : string) : string :=
  match s with
  | EmptyString => ""
  | String c s' => escape_char c ++ escape_ascii s'
  end.

Definition dquote : string := String (ascii_of_N 34) "".

Definition encode_basestring_ascii (s : string) : string :=
  dquote ++ escape_ascii s ++ dquote.

(** [floatstr] of [json.encoder]. *)
Definition floatstr (f : pyfloat) : string :=
  match f with
  | FNaN => "NaN"
  | FInf => "Infinity"
  | FNegInf => "-Infinity"
  | FFinite r => r
  end.

Fixpoint spaces (n : nat) : string :=
  match n with O => "" | S n' => String " " (spaces n') end.

Definition LF : string := String (ascii_of_N 10) "".

(** ['\n' + ' ' * (indent * level)] when an indent is given, nothing
    otherwise. *)
Definition newline_indent (indent : option nat) (level : nat) : string :=
  match indent with
  | Some i => LF ++ spaces (i * level)
  | None => ""
  end.

(** The default separators of [json.dumps]: [(',', ': ')] with an indent,
    [(', ', ': ')] without. *)
Definition item_separator (indent : option nat) : string :=
  match indent with Some _ => "," | None => ", " end.
Definition key_separator : string := ": ".

(** [_iterencode] of [json.encoder], joined into one string. *)
Fixpoint iterencode (indent : option nat) (level : nat) (o : pyval) : string :=
  match o with
  | PNone => "null"
  | PBool true => "true"
  | PBool false => "false"
  | PInt z => str_int z
  | PFloat f => floatstr f
  | PStr s => encode_basestring_ascii s
  | PList [] => "[]"
  | PList l =>
      "[" ++ newline_indent indent (S level)
      ++ String.concat (item_separator indent ++ newline_indent indent (S level))
           (List.map (iterencode indent (S level)) l)
      ++ newline_indent indent level ++ "]"
  | PDict [] => "{}"
  | PDict d =>
      "{" ++ newline_indent indent (S level)
      ++ String.concat (item_separator indent ++ newline_indent indent (S level))
           (List.map (fun kv =>
                        match kv with
                        | (k, v) => encode_basestring_ascii k ++ key_separator
                                    ++ iterencode indent (S level) v
                        end) d)
      ++ newline_indent indent level ++ "}"
  end.

(** [json.dumps(obj, indent=indent)] *)
Definition json_dumps (indent : option nat) (obj : pyval) : string :=
  iterencode indent 0 obj.

(** Python source text of a [str] literal in double quotes. *)
Definition quoted (s : string) : string := dquote ++ s ++ dquote.

(** ** Bytes: UTF-8 and Base64 *)

Definition byte_of_N (n : N) : Byte.byte := byte_of_ascii (ascii_of_N n).

(** [str.encode()] (UTF-8) on code points below 256. *)
Fixpoint utf8_encode (s : string) : list Byte.byte :=
  match s with
  | EmptyString => []
  | String c s' =>
      let n := N_of_ascii c in
      if (n <? 128)%N then byte_of_N n :: utf8_encode s'
      else byte_of_N (192 + n / 64) :: byte_of_N (128 + n mod 64) :: utf8_encode s'
  end.

Definition b64_char (n : N) : ascii :=
  if (n <? 26)%N then ascii_of_N (65 + n)
  else if (n <? 52)%N then ascii_of_N (71 + n)
  else if (n <? 62)%N then ascii_of_N (n - 4)
  else if (n =? 62)%N then "+"%char
  else "/"%char.

(** [base64.b64encode(bs).decode()] *)
Fixpoint b64encode (bs : list Byte.byte) : string :=
  match bs with
  | [] => ""
  | [a] =>
      let a := Byte.to_N a in
      String (b64_char (a / 4)) (String (b64_char (a mod 4 * 16)) "==")
  | [a; b] =>
      let a := Byte.to_N a in
      let b := Byte.to_N b in
      String (b64_char (a / 4))
        (String (b64_char (a mod 4 * 16 + b / 16))
           (String (b64_char (b mod 16 * 4)) "="))
  | a :: b :: c :: rest =>
      let a := Byte.to_N a in
      let b := Byte.to_N b in
      let c := Byte.to_N c in
      String (b64_char (a / 4))
        (String (b64_char (a mod 4 * 16 + b / 16))
           (String (b64_char (b mod 16 * 4 + c / 64))
              (String (b64_char (c mod 64)) (b64encode rest))))
  end.

(** ** Calendar *)

(** The proleptic Gregorian date (year, month, day) of a day number counted
    from 1970-01-01. *)
Definition civil_from_days (days : Z) : Z * Z * Z :=
  let z := days + 719468 in
  let era := z / 146097 in
  let doe := z - era * 146097 in
  let yoe := (doe - doe / 1460 + doe / 36524 - doe / 146096) / 365 in
  let doy := doe - (365 * yoe + yoe / 4 - yoe / 100) in
  let mp := (5 * doy + 2) / 153 in
  let d := doy - (153 * mp + 2) / 5 + 1 in
  let m := if mp <? 10 then mp + 3 else mp - 9 in
  let y := yoe + era * 400 + (if m <=? 2 then 1 else 0) in
  (y, m, d).

(** [strftime("%Y-%m-%d")] on the date part. *)
Definition strftime_Ymd (date : Z * Z * Z) : string :=
  match date with
  | (y, m, d) => zfill4 y ++ "-" ++ zfill2 m ++ "-" ++ zfill2 d
  end.

(** ** Exceptions *)

(** The exception classes that the program raises, catches or can be handed
    by its libraries.  [requests.exceptions.JSONDecodeError] is what
    [Response.json] raises in requests 2.27 and later (earlier versions let
    a [ValueError] through); [BotocoreError] stands for the classes of
    botocore ([ClientError], [ParamValidationError], ...) and
    [OtherException] for any other subclass of [Exception]. *)
Inductive exc_class :=
  | Exception_
  | KeyError
  | TypeError
  | AttributeError
  | ValueError
  | RequestException
  | ConnectionError_
  | Timeout_
  | HTTPError
  | JSONDecodeError
  | BotocoreError (name : string)
  | OtherException (name : string).

(** An exception object: its class and the text [str(e)] gives. *)
Record exn := mk_exn { exc_type : exc_class; exc_str : string }.

(** [isinstance(e, requests.RequestException)] *)
Definition is_RequestException (e : exn) : bool :=
  match exc_type e with
  | RequestException | ConnectionError_ | Timeout_ | HTTPError | JSONDecodeError => true
  | _ => false
  end.

(** [isinstance(e, Exception)]: every class above derives from it. *)
Definition is_Exception (e : exn) : bool := true.

Inductive outcome (A : Type) :=
  | Returned (a : A)
  | Raised (e : exn).
Arguments Returned {A} a.
Arguments Raised {A} e.

(** ** The outside world *)

(** The two modules of the repository that define the pipeline. *)
Inductive source_module :=
  | lambda_function
  | lambda_spotify_get_user_recent_played.

(** Module-level configuration, read from the environment at import time. *)
Record config := {
  SPOTIFY_CLIENT_ID : option string;
  SPOTIFY_CLIENT_SECRET : option string;
  SPOTIFY_REFRESH_TOKEN : option string;
  RAW_S3_BUCKET_NAME : option string;
  AWS_REGION : string
}.

Definition TRACKS_LIMIT : Z := 50.

(** A [requests.Response]: the fields the program reads, and what its
    [json()] method does (the decoded body, or the exception it raises). *)
Record response := {
  status_code : Z;
  reason : string;
  url : string;
  text : string;
  json : outcome pyval
}.

Record post_request := {
  post_url : string;
  post_authorization : string;
  post_data : list (string * option string);
  post_timeout : Z
}.

(** The GET request of [get_recent_tracks].  The header is
    [f"Bearer {access_token}"]; the interpolated value is kept as it is. *)
Record get_request := {
  get_url : string;
  get_bearer : pyval;
  get_params : list (string * Z);
  get_timeout : Z
}.

(** Everything one run reads from outside: the clock (POSIX seconds and
    the offset of the process's local zone, in seconds east of UTC), the
    two HTTP endpoints, and the faults of the storage client (credentials,
    permissions, network).  [bucket_validation] is the exception with which
    the installed botocore refuses a [Bucket] argument that is [None] or
    empty: its class and its text differ from one version to the next. *)
Record world := {
  time_time : Z;
  utcoffset : Z;
  requests_post : post_request -> outcome response;
  requests_get : get_request -> outcome response;
  boto3_client_fault : option exn;
  bucket_validation : option string -> exn;
  put_object_fault : option exn
}.

(** A stored object. *)
Record s3_object := {
  Body : list Byte.byte;
  ContentType : string
}.

(** What a run does to the outside, in order. *)
Inductive event :=
  | EvPost (r : post_request)
  | EvGet (r : get_request)
  | EvClient (service region : string)
  | EvPutObject (bucket : option string) (key body content_type : string)
  | EvPrint (v : pyval).

(** The state that outlives a call: the buckets that exist, the objects
    stored under (bucket, key), and the trace of effects so far. *)
Record state := {
  buckets : gset string;
  objects : gmap (string * string) s3_object;
  trace : list event
}.

Definition log (ev : event) (st : state) : state :=
  {| buckets := buckets st; objects := objects st; trace := trace st ++ [ev] |}.

(** ** The monad: state and exceptions *)

Definition M (A : Type) : Type := state -> outcome A * state.

Definition ret {A} (a : A) : M A := fun st => (Returned a, st).

Definition raise {A} (e : exn) : M A := fun st => (Raised e, st).

Definition bind {A B} (c : M A) (k : A -> M B) : M B :=
  fun st =>
    match c st with
    | (Returned a, st') => k a st'
    | (Raised e, st') => (Raised e, st')
    end.

(** [try: body / except <class> as e: handler e] *)
Definition try_except {A} (body : M A) (catches : exn -> bool) (handler : exn -> M A)
  : M A :=
  fun st =>
    match body st with
    | (Returned a, st') => (Returned a, st')
    | (Raised e, st') => if catches e then handler e st' else (Raised e, st')
    end.

Definition lift {A} (o : outcome A) : M A := fun st => (o, st).

Definition emit (ev : event) : M unit := fun st => (Returned tt, log ev st).

Declare Scope py_scope.
Delimit Scope py_scope with py.
Notation "x <- c ;; k" := (bind c (fun x => k))
  (at level 100, c at next level, right associativity) : py_scope.
Notation "c ;;; k" := (bind c (fun _ => k))
  (at level 100, right associativity) : py_scope.
Open Scope py_scope.

(** ** Library calls *)

Definition print (v : pyval) : M unit := emit (EvPrint v).

(** [requests.post(...)] and [requests.get(...)] *)
Definition post (w : world) (r : post_request) : M response :=
  emit (EvPost r) ;;; lift (requests_post w r).
Definition get (w : world) (r : get_request) : M response :=
  emit (EvGet r) ;;; lift (requests_get w r).

(** The local [http_error_msg] of [Response.raise_for_status()]: empty
    unless the status is 4xx or 5xx. *)
Definition http_error_msg (r : response) : string :=
  if (400 <=? status_code r) && (status_code r <? 500) then
    str_int (status_code r) ++ " Client Error: " ++ reason r ++ " for url: " ++ url r
  else if (500 <=? status_code r) && (status_code r <? 600) then
    str_int (status_code r) ++ " Server Error: " ++ reason r ++ " for url: " ++ url r
  else "".

(** [Response.raise_for_status()]: an [HTTPError] when there is a message,
    nothing otherwise. *)
Definition raise_for_status (r : response) : M unit :=
  if String.eqb (http_error_msg r) "" then ret tt
  else raise (mk_exn HTTPError (http_error_msg r)).

(** [o[k]] for a [str] key. *)
Definition getitem (o : pyval) (k : string) : M pyval :=
  match o with
  | PDict d =>
      match dict_lookup k d with
      | Some v => ret v
      | None => raise (mk_exn KeyError (repr_str k))
      end
  | PList _ => raise (mk_exn TypeError "list indices must be integers or slices, not str")
  | PStr _ => raise (mk_exn TypeError "string indices must be integers, not 'str'")
  | _ => raise (mk_exn TypeError ("'" ++ type_name o ++ "' object is not subscriptable"))
  end.

(** [o.get(k, default)] *)
Definition get_method (o : pyval) (k : string) (default : pyval) : M pyval :=
  match o with
  | PDict d =>
      match dict_lookup k d with
      | Some v => ret v
      | None => ret default
      end
  | _ => raise (mk_exn AttributeError
                  ("'" ++ type_name o ++ "' object has no attribute 'get'"))
  end.

(** [len(o)] *)
Definition len (o : pyval) : M Z :=
  match o with
  | PList l => ret (Z.of_nat (length l))
  | PDict d => ret (Z.of_nat (length d))
  | PStr s => ret (Z.of_nat (String.length s))
  | _ => raise (mk_exn TypeError ("object of type '" ++ type_name o ++ "' has no len()"))
  end.

(** [datetime.now()]: the civil date on the process's local clock; and the
    date on the UTC clock at the same instant, for comparison. *)
Definition datetime_now (w : world) : Z * Z * Z :=
  civil_from_days ((time_time w + utcoffset w) / 86400).
Definition datetime_utcnow (w : world) : Z * Z * Z :=
  civil_from_days (time_time w / 86400).

(** [boto3.client(service, region_name=region)] *)
Definition boto3_client (w : world) (service region : string) : M unit :=
  emit (EvClient service region) ;;;
  match boto3_client_fault w with
  | Some e => raise e
  | None => ret tt
  end.

(** [s3.put_object(Bucket=..., Key=..., Body=..., ContentType=...)]: the
    parameters are validated, then the request is sent; the service stores
    the UTF-8 bytes of a [str] body under (bucket, key), replacing what was
    there, when the bucket exists. *)
Definition put_object (w : world) (bucket : option string) (key body content_type : string)
  : M unit :=
  emit (EvPutObject bucket key body content_type) ;;;
  match bucket with
  | None => raise (bucket_validation w None)
  | Some b =>
      if String.eqb b "" then raise (bucket_validation w (Some ""))
      else
        match put_object_fault w with
        | Some e => raise e
        | None =>
            fun st =>
              if decide (b ∈ buckets st) then
                (Returned tt,
                 {| buckets := buckets st;
                    objects := <[(b, key) := {| Body := utf8_encode body;
                                                ContentType := content_type |}]>
                                 (objects st);
                    trace := trace st |})
              else
                (Raised (mk_exn (BotocoreError "ClientError")
                           "An error occurred (NoSuchBucket) when calling the PutObject operation: The specified bucket does not exist"),
                 st)
        end
  end.

(** [s3.get_object(Bucket=bucket, Key=key)], as a test reads an object back. *)
Definition get_object (st : state) (bucket key : string) : option s3_object :=
  objects st !! (bucket, key).

(** ** The program *)

(** The [print] calls that only [lambda_function.py] has. *)
Definition diagnostic (m : source_module) (v : pyval) : M unit :=
  match m with
  | lambda_function => print v
  | lambda_spotify_get_user_recent_played => ret tt
  end.

(** The structured failure of the token step. *)
Definition failure (status : Z) (body : string) : pyval :=
  PDict [("statusCode", PInt status); ("body", PStr body)].

(** The request [get_spotify_token] sends. *)
Definition token_request (cfg : config) : post_request :=
  let auth_str :=
    format_opt (SPOTIFY_CLIENT_ID cfg) ++ ":" ++ format_opt (SPOTIFY_CLIENT_SECRET cfg) in
  let b64_auth := b64encode (utf8_encode auth_str) in
  {| post_url := "https://accounts.spotify.com/api/token";
     post_authorization := "Basic " ++ b64_auth;
     post_data := [("grant_type", Some "refresh_token");
                   ("refresh_token", SPOTIFY_REFRESH_TOKEN cfg)];
     post_timeout := 10 |}.

Definition get_spotify_token (m : source_module) (cfg : config) (w : world) : M pyval :=
  try_except
    (resp <- post w (token_request cfg) ;;
     if status_code resp =? 200 then
       auth_data <- lift (json resp) ;;
       diagnostic m (PStr "Token Generated") ;;;
       getitem auth_data "access_token"
     else
       diagnostic m (failure (status_code resp) (text resp)) ;;;
       ret (failure (status_code resp) (text resp)))
    is_RequestException
    (fun e => ret (failure 500 ("Request failed: " ++ exc_str e))).

(** The request [get_recent_tracks] sends. *)
Definition tracks_request (access_token : pyval) : get_request :=
  {| get_url := "https://api.spotify.com/v1/me/player/recently-played";
     get_bearer := access_token;
     get_params := [("limit", TRACKS_LIMIT)];
     get_timeout := 10 |}.

Definition get_recent_tracks (w : world) (access_token : pyval) : M pyval :=
  try_except
    (response <- get w (tracks_request access_token) ;;
     raise_for_status response ;;;
     lift (json response))
    is_RequestException
    (fun e => raise (mk_exn Exception_ ("Failed to fetch recent tracks: " ++ exc_str e))).

(** The local [key] of [save_to_s3]. *)
Definition key (m : source_module) (today_date : string) : string :=
  match m with
  | lambda_function => today_date ++ "/" ++ today_date ++ "_recent_tracks.json"
  | lambda_spotify_get_user_recent_played => today_date ++ "/recent_tracks.json"
  end.

Definition save_to_s3 (m : source_module) (cfg : config) (w : world)
    (data : pyval) (today_date : string) : M pyval :=
  try_except
    (boto3_client w "s3" (AWS_REGION cfg) ;;;
     put_object w (RAW_S3_BUCKET_NAME cfg) (key m today_date)
       (json_dumps (Some 2%nat) data) "application/json" ;;;
     ret (PDict [("statusCode", PInt 200);
                 ("body", PStr ("Data saved to s3://"
                                ++ format_opt (RAW_S3_BUCKET_NAME cfg)
                                ++ "/" ++ key m today_date))]))
    is_Exception
    (fun e => raise (mk_exn Exception_ ("Failed to save to S3: " ++ exc_str e))).

(** [result['metadata'] = ...] on the dict [save_to_s3] returned. *)
Definition setitem (o : pyval) (k : string) (v : pyval) : pyval :=
  match o with
  | PDict d => PDict (dict_setitem k v d)
  | _ => o
  end.

Definition opt_str (o : option string) : pyval :=
  match o with Some s => PStr s | None => PNone end.

Definition lambda_handler (m : source_module) (cfg : config) (w : world)
    (event context : pyval) : M pyval :=
  try_except
    (let today_date := strftime_Ymd (datetime_now w) in
     access_token <- get_spotify_token m cfg w ;;
     if isinstance_dict access_token then ret access_token
     else
       recent_tracks <- get_recent_tracks w access_token ;;
       result <- save_to_s3 m cfg w recent_tracks today_date ;;
       items <- get_method recent_tracks "items" (PList []) ;;
       tracks_count <- len items ;;
       let result :=
         setitem result "metadata"
           (PDict [("date", PStr today_date);
                   ("tracks_count", PInt tracks_count);
                   ("bucket", opt_str (RAW_S3_BUCKET_NAME cfg))]) in
       diagnostic m result ;;;
       ret result)
    is_Exception
    (fun e => ret (failure 500 (json_dumps None (PDict [("error", PStr (exc_str e))])))).

(** * Reading a run *)

(** The local [today_date] of [lambda_handler]. *)
Definition today_date (w : world) : string := strftime_Ymd (datetime_now w).

(** The events that only [get_recent_tracks] ([EvGet]) and [save_to_s3]
    ([EvClient], [EvPutObject]) produce. *)
Definition fetch_or_store (ev : event) : bool :=
  match ev with
  | EvGet _ | EvClient _ _ | EvPutObject _ _ _ _ => true
  | EvPost _ | EvPrint _ => false
  end.

(** What [diagnostic] adds to the trace. *)
Definition diagnostic_events (m : source_module) (v : pyval) : list event :=
  match m with
  | lambda_function => [EvPrint v]
  | lambda_spotify_get_user_recent_played => []
  end.

(** [st] with more events at the end of its trace, everything else kept. *)
Definition extend (st : state) (evs : list event) : state :=
  {| buckets := buckets st; objects := objects st; trace := trace st ++ evs |}.

(** The events of [save_to_s3]. *)
Definition store_event (ev : event) : bool :=
  match ev with
  | EvClient _ _ | EvPutObject _ _ _ _ => true
  | _ => false
  end.

(** The result of the top-level [except Exception] clause. *)
Definition caught (e : exn) : pyval :=
  failure 500 (json_dumps None (PDict [("error", PStr (exc_str e))])).

(** [len(recent_tracks.get('items', []))], which touches no state. *)
Definition count_items (recent_tracks : pyval) : outcome Z :=
  match recent_tracks with
  | PDict d =>
      match dict_lookup "items" d with
      | Some (PList l) => Returned (Z.of_nat (length l))
      | Some (PDict l) => Returned (Z.of_nat (length l))
      | Some (PStr s) => Returned (Z.of_nat (String.length s))
      | Some v => Raised (mk_exn TypeError
                            ("object of type '" ++ type_name v ++ "' has no len()"))
      | None => Returned 0
      end
  | v => Raised (mk_exn AttributeError
                   ("'" ++ type_name v ++ "' object has no attribute 'get'"))
  end.

(** The metadata the handler attaches to the result of [save_to_s3]. *)
Definition metadata (cfg : config) (date : string) (tracks_count : Z) : pyval :=
  PDict [("date", PStr date);
         ("tracks_count", PInt tracks_count);
         ("bucket", opt_str (RAW_S3_BUCKET_NAME cfg))].

(** The object [save_to_s3] writes for a payload. *)
Definition stored (data : pyval) : s3_object :=
  {| Body := utf8_encode (json_dumps (Some 2%nat) data);
     ContentType := "application/json" |}.

(** The descriptor [save_to_s3] returns. *)
Definition saved (m : source_module) (bucket date : string) : pyval :=
  PDict [("statusCode", PInt 200);
         ("body", PStr ("Data saved to s3://" ++ bucket ++ "/" ++ key m date))].

(** The two events of a call of [save_to_s3] that reaches [put_object]. *)
Definition store_events (m : source_module) (cfg : config) (data : pyval) (date : string)
    (bucket : option string) : list event :=
  [EvClient "s3" (AWS_REGION cfg);
   EvPutObject bucket (key m date) (json_dumps (Some 2%nat) data) "application/json"].

(** A run is successful when the token step hands over a token, the fetch
    step a payload, and the handler answers with status 200. *)
Definition successful_run (m : source_module) (cfg : config) (w : world)
    (event context : pyval) (st : state) (recent_tracks : pyval) (st' : state) : Prop :=
  exists tok st1 st2 result,
    get_spotify_token m cfg w st = (Returned tok, st1) /\
    isinstance_dict tok = false /\
    get_recent_tracks w tok st1 = (Returned recent_tracks, st2) /\
    lambda_handler m cfg w event context st = (Returned (PDict result), st') /\
    dict_lookup "statusCode" result = Some (PInt 200).

(** ** Sample inputs *)

Definition cfg0 : config :=
  {| SPOTIFY_CLIENT_ID := Some "client-id";
     SPOTIFY_CLIENT_SECRET := Some "client-secret";
     SPOTIFY_REFRESH_TOKEN := Some "refresh-token";
     RAW_S3_BUCKET_NAME := Some "raw-bucket";
     AWS_REGION := "eu-north-1" |}.

Definition st0 : state :=
  {| buckets := {["raw-bucket"]}; objects := ∅; trace := [] |}.

Definition token_url : string := "https://accounts.spotify.com/api/token".
Definition tracks_url : string :=
  "https://api.spotify.com/v1/me/player/recently-played?limit=50".

(** A token response of the given status whose body decodes to [body]. *)
Definition token_response (status : Z) (reason : string) (body : pyval) : response :=
  {| status_code := status; reason := reason; url := token_url;
     text := json_dumps None body; json := Returned body |}.

Definition tracks_response (status : Z) (reason : string) (body : pyval) : response :=
  {| status_code := status; reason := reason; url := tracks_url;
     text := json_dumps None body; json := Returned body |}.

Definition payload0 : pyval :=
  PDict [("items", PList [PDict [("track", PDict [("name", PStr "Shape of You")])]]);
         ("limit", PInt 50)].

Definition payload1 : pyval :=
  PDict [("items", PList []); ("limit", PInt 50)].

(** The refusal of a [Bucket] argument by one version of botocore. *)
Definition ParamValidationError (bucket : option string) : exn :=
  mk_exn (BotocoreError "ParamValidationError")
    match bucket with
    | None => "Parameter validation failed: Invalid type for parameter Bucket"
    | Some _ => "Parameter validation failed: Invalid bucket name"
    end.

(** A world at the given instant and offset whose endpoints answer with
    the given outcomes, with a storage client that works. *)
Definition world_of (time offset : Z) (token tracks : outcome response) : world :=
  {| time_time := time; utcoffset := offset;
     requests_post := fun _ => token;
     requests_get := fun _ => tracks;
     boto3_client_fault := None;
     bucket_validation := ParamValidationError;
     put_object_fault := None |}.

Definition token_ok : outcome response :=
  Returned (token_response 200 "OK" (PDict [("access_token", PStr "BQDtoken")])).

(** 2024-01-15 12:00:00 UTC, on a UTC clock: everything succeeds. *)
Definition w_ok : world :=
  world_of 1705320000 0 token_ok (Returned (tracks_response 200 "OK" payload0)).

(** Later the same day, with another payload. *)
Definition w_ok' : world :=
  world_of 1705330000 0 token_ok (Returned (tracks_response 200 "OK" payload1)).

(** The token endpoint rejects the client. *)
Definition w_401 : world :=
  world_of 1705320000 0
    (Returned (token_response 401 "Unauthorized" (PDict [("error", PStr "invalid_client")])))
    (Returned (tracks_response 200 "OK" payload0)).

(** The token request times out. *)
Definition w_timeout : world :=
  world_of 1705320000 0
    (Raised (mk_exn Timeout_ "Read timed out. (read timeout=10)"))
    (Returned (tracks_response 200 "OK" payload0)).

(** The token endpoint answers 200 without an [access_token]. *)
Definition w_no_token : world :=
  world_of 1705320000 0
    (Returned (token_response 200 "OK" (PDict [("token_type", PStr "Bearer")])))
    (Returned (tracks_response 200 "OK" payload0)).

(** The activity endpoint answers 401, and 300 with a JSON body. *)
Definition w_tracks_401 : world :=
  world_of 1705320000 0 token_ok
    (Returned (tracks_response 401 "Unauthorized"
                 (PDict [("error", PStr "The access token expired")]))).
Definition w_tracks_300 : world :=
  world_of 1705320000 0 token_ok
    (Returned (tracks_response 300 "Multiple Choices" payload1)).

(** 2024-01-16 00:30:00 UTC on a clock five hours behind UTC. *)
Definition w_west : world :=
  world_of 1705365000 (-18000) token_ok (Returned (tracks_response 200 "OK" payload0)).

(** ** Configuration and further inputs *)

(** [os.getenv(name)] and [os.getenv(name, default)] on an environment. *)
Definition os_getenv (environ : gmap string string) (name : string) : option string :=
  environ !! name.
Definition os_getenv_default (environ : gmap string string) (name default : string)
  : string :=
  match environ !! name with Some v => v | None => default end.

(** The module-level constants, as the import reads them from the
    environment ([load_dotenv] has filled it in by then). *)
Definition load_config (environ : gmap string string) : config :=
  {| SPOTIFY_CLIENT_ID := os_getenv environ "SPOTIFY_CLIENT_ID";
     SPOTIFY_CLIENT_SECRET := os_getenv environ "SPOTIFY_CLIENT_SECRET";
     SPOTIFY_REFRESH_TOKEN := os_getenv environ "SPOTIFY_REFRESH_TOKEN";
     RAW_S3_BUCKET_NAME := os_getenv environ "RAW_S3_BUCKET_NAME";
     AWS_REGION := os_getenv_default environ "AWS_REGION" "eu-north-1" |}.

Definition is_print (ev : event) : bool :=
  match ev with EvPrint _ => true | _ => false end.




(** The day number, counted from 1970-01-01, of a proleptic Gregorian
    date: the inverse of [civil_from_days]. *)
Definition days_from_civil (date : Z * Z * Z) : Z :=
  match date with
  | (y, m, d) =>
      let y' := y - (if m <=? 2 then 1 else 0) in
      let era := y' / 400 in
      let yoe := y' - era * 400 in
      let mp := if 2 <? m then m - 3 else m + 9 in
      let doy := (153 * mp + 2) / 5 + d - 1 in
      let doe := yoe * 365 + yoe / 4 - yoe / 100 + doy in
      era * 146097 + doe - 719468
  end.

(** The local day number of a clock, and the clocks on which
    [datetime.now()] gives a year from 1970 to 9999. *)
Definition local_day (w : world) : Z := (time_time w + utcoffset w) / 86400.
Definition clock_in_range (w : world) : Prop :=
  0 <= time_time w + utcoffset w < 253402300800.

(** [auth_data] is a JSON object with an [access_token] member. *)
Definition has_access_token (auth_data : pyval) : bool :=
  match auth_data with
  | PDict d => dict_contains "access_token" d
  | _ => false
  end.

(** The token endpoint answers 200 with an [access_token] that is itself a
    JSON object, and 200 with a body that is a JSON array. *)
Definition w_token_object : world :=
  world_of 1705320000 0
    (Returned (token_response 200 "OK"
                 (PDict [("access_token", PDict [("value", PStr "BQDtoken")]);
                         ("token_type", PStr "Bearer")])))
    (Returned (tracks_response 200 "OK" payload0)).
Definition w_token_array : world :=
  world_of 1705320000 0
    (Returned (token_response 200 "OK" (PList [])))
    (Returned (tracks_response 200 "OK" payload0)).

(** The service refuses the write. *)
Definition w_access_denied : world :=
  {| time_time := 1705320000; utcoffset := 0;
     requests_post := fun _ => token_ok;
     requests_get := fun _ => Returned (tracks_response 200 "OK" payload0);
     boto3_client_fault := None;
     bucket_validation := ParamValidationError;
     put_object_fault :=
       Some (mk_exn (BotocoreError "ClientError")
               "An error occurred (AccessDenied) when calling the PutObject operation: Access Denied") |}.

(** The token endpoint answers 200 with a body that is not JSON. *)
Definition w_bad_json : world :=
  world_of 1705320000 0
    (Returned {| status_code := 200; reason := "OK"; url := token_url;
                 text := "<html>Bad gateway</html>";
                 json := Raised (mk_exn JSONDecodeError
                                   "Expecting value: line 1 column 1 (char 0)") |})
    (Returned (tracks_response 200 "OK" payload0)).

(** The activity request cannot connect. *)
Definition w_tracks_down : world :=
  world_of 1705320000 0 token_ok
    (Raised (mk_exn ConnectionError_ "Failed to establish a new connection")).

(** The activity endpoint answers 200 with a JSON array. *)
Definition w_tracks_list : world :=
  world_of 1705320000 0 token_ok
    (Returned (tracks_response 200 "OK" (PList [PInt 1; PInt 2]))).

(** The next day. *)
Definition w_next_day : world :=
  world_of 1705406400 0 token_ok (Returned (tracks_response 200 "OK" payload1)).

(** A configuration whose bucket name is empty, and a state without the
    bucket. *)
Definition cfg_empty_bucket : config :=
  {| SPOTIFY_CLIENT_ID := Some "client-id";
     SPOTIFY_CLIENT_SECRET := Some "client-secret";
     SPOTIFY_REFRESH_TOKEN := Some "refresh-token";
     RAW_S3_BUCKET_NAME := Some "";
     AWS_REGION := "eu-north-1" |}.

Definition st_no_bucket : state :=
  {| buckets := ∅; objects := ∅; trace := [] |}.

(** Induction on values, with the elements of lists and dicts. *)
Section pyval_induction.
Variable P : pyval -> Prop.
Hypothesis HNone : P PNone.
Hypothesis HBool : forall b, P (PBool b).
Hypothesis HInt : forall z, P (PInt z).
Hypothesis HFloat : forall f, P (PFloat f).
Hypothesis HStr : forall s, P (PStr s).
Hypothesis HList : forall l, Forall P l -> P (PList l).
Hypothesis HDict : forall d, Forall (fun kv => P (snd kv)) d -> P (PDict d).

End pyval_induction.

(** ** [json.dumps] on full Unicode text

    The embedding keeps a [str] as code points below 256.  The serializer
    itself is defined on every code point; it is given here on values whose
    strings are lists of code points (up to 0x10FFFF), to state what
    [json.dumps] writes for any text, and is shown below to agree with
    [iterencode] on the strings of the embedding. *)

(** ['{0:04x}'.format(n)] for [n] below 65536. *)
Definition hex4 (n : N) : string :=
  String (hex_digit ((n / 4096) mod 16))
    (String (hex_digit ((n / 256) mod 16))
       (String (hex_digit ((n / 16) mod 16))
          (String (hex_digit (n mod 16)) ""))).

(** The [replace] of [py_encode_basestring_ascii] on one code point: the
    short escapes, printable ASCII as it is, [\uXXXX] below 0x10000, and a
    surrogate pair from 0x10000. *)
Definition escape_code_point (n : N) : string :=
  if (n =? 92)%N then "\\"
  else if (n =? 34)%N then String "\" dquote
  else if (n =? 8)%N then "\b"
  else if (n =? 12)%N then "\f"
  else if (n =? 10)%N then "\n"
  else if (n =? 13)%N then "\r"
  else if (n =? 9)%N then "\t"
  else if ((32 <=? n) && (n <=? 126))%N then String (ascii_of_N n) ""
  else if (n <? 65536)%N then "\u" ++ hex4 n
  else
    let v := (n - 65536)%N in
    "\u" ++ hex4 (55296 + (v / 1024) mod 1024)
    ++ "\u" ++ hex4 (56320 + v mod 1024).

Fixpoint escape_code_points (s : list N) : string :=
  match s with
  | [] => ""
  | n :: s' => escape_code_point n ++ escape_code_points s'
  end.

Definition encode_code_points (s : list N) : string :=
  dquote ++ escape_code_points s ++ dquote.

(** Values whose strings and keys are lists of code points. *)
Inductive uval :=
  | UNone
  | UBool (b : bool)
  | UInt (z : Z)
  | UFloat (f : pyfloat)
  | UStr (s : list N)
  | UList (l : list uval)
  | UDict (d : list (list N * uval)).

(** [_iterencode] on such values: [iterencode] with [encode_code_points]
    for the strings. *)
Fixpoint iterencode_u (indent : option nat) (level : nat) (o : uval) : string :=
  match o with
  | UNone => "null"
  | UBool true => "true"
  | UBool false => "false"
  | UInt z => str_int z
  | UFloat f => floatstr f
  | UStr s => encode_code_points s
  | UList [] => "[]"
  | UList l =>
      "[" ++ newline_indent indent (S level)
      ++ String.concat (item_separator indent ++ newline_indent indent (S level))
           (List.map (iterencode_u indent (S level)) l)
      ++ newline_indent indent level ++ "]"
  | UDict [] => "{}"
  | UDict d =>
      "{" ++ newline_indent indent (S level)
      ++ String.concat (item_separator indent ++ newline_indent indent (S level))
           (List.map (fun kv =>
                        match kv with
                        | (k, v) => encode_code_points k ++ key_separator
                                    ++ iterencode_u indent (S level) v
                        end) d)
      ++ newline_indent indent level ++ "}"
  end.

Definition json_dumps_u (indent : option nat) (obj : uval) : string :=
  iterencode_u indent 0 obj.




Section uval_induction.
Variable P : uval -> Prop.
Hypothesis HNone : P UNone.
Hypothesis HBool : forall b, P (UBool b).
Hypothesis HInt : forall z, P (UInt z).
Hypothesis HFloat : forall f, P (UFloat f).
Hypothesis HStr : forall s, P (UStr s).
Hypothesis HList : forall l, Forall P l -> P (UList l).
Hypothesis HDict : forall d, Forall (fun kv => P (snd kv)) d -> P (UDict d).

End uval_induction.

(** A payload with Japanese text and an emoji. *)
Definition upayload : uval :=
  UDict [([110; 97; 109; 101]%N, UStr [26085; 26412; 32; 128512; 247]%N);
         ([100; 117; 114]%N, UInt 233713)].

(** * Properties *)

(** ** The library models on known values *)

Example json_dumps_compact :
  json_dumps None (PDict [("error", PStr "'access_token'")])
  = "{" ++ quoted "error" ++ ": " ++ quoted "'access_token'" ++ "}".
Proof. reflexivity. Qed.

Example b64encode_foobar :
  map (fun s => b64encode (utf8_encode s)) ["f"; "fo"; "foo"; "foob"; "None:None"]
  = ["Zg=="; "Zm8="; "Zm9v"; "Zm9vYg=="; "Tm9uZTpOb25l"].
Proof. reflexivity. Qed.

Example civil_from_days_samples :
  map (fun t => strftime_Ymd (civil_from_days (t / 86400)))
      [0; 951782400; 1705276800; 1705363199; 1709164800; 1735689599; 4102444800]
  = ["1970-01-01"; "2000-02-29"; "2024-01-15"; "2024-01-15"; "2024-02-29";
     "2024-12-31"; "2100-01-01"].
Proof. reflexivity. Qed.

Lemma extend_extend st evs evs' :
  extend (extend st evs) evs' = extend st (evs ++ evs').
Proof. unfold extend; simpl. by rewrite <- app_assoc. Qed.

Lemma log_extend st ev : log ev st = extend st [ev].
Proof. reflexivity. Qed.

Lemma diagnostic_run m v st :
  diagnostic m v st = (Returned tt, extend st (diagnostic_events m v)).
Proof.
  destruct m, st; unfold diagnostic, print, emit, ret, log, extend; simpl;
    [reflexivity | by rewrite app_nil_r].
Qed.

Ltac step :=
  unfold bind, try_except, post, get, emit, lift, ret, raise, is_Exception; simpl;
  rewrite ?log_extend, ?diagnostic_run, ?extend_extend; simpl.

(** ** The token step *)

Section TokenStep.
Variables (m : source_module) (cfg : config) (w : world).

(** A response with a status other than 200 becomes the structured
    failure, after the POST and (in [lambda_function.py]) one print. *)
Lemma get_spotify_token_non_200 st resp :
  requests_post w (token_request cfg) = Returned resp ->
  status_code resp <> 200 ->
  get_spotify_token m cfg w st
  = (Returned (failure (status_code resp) (text resp)),
     extend st (EvPost (token_request cfg)
                :: diagnostic_events m (failure (status_code resp) (text resp)))).
Proof.
  intros Hpost Hne. unfold get_spotify_token. step. rewrite Hpost.
  apply Z.eqb_neq in Hne. rewrite Hne. step. reflexivity.
Qed.

(** A 200 response whose body decodes to [auth_data]: the outcome is that
    of [auth_data['access_token']], unless that raises a
    [RequestException] (it never does). *)
Lemma get_spotify_token_200 st resp auth_data :
  requests_post w (token_request cfg) = Returned resp ->
  status_code resp = 200 ->
  json resp = Returned auth_data ->
  get_spotify_token m cfg w st
  = (fst (getitem auth_data "access_token" st),
     extend st (EvPost (token_request cfg)
                :: diagnostic_events m (PStr "Token Generated"))).
Proof.
  intros Hpost H200 Hjson. unfold get_spotify_token. step. rewrite Hpost.
  rewrite H200. simpl. step. rewrite Hjson. step.
  destruct auth_data as [| | | | |l|d]; simpl; try reflexivity.
  destruct (dict_lookup "access_token" d); reflexivity.
Qed.

(** A request that raises: a [RequestException] is turned into the
    500 failure, anything else goes on to the caller. *)
Lemma get_spotify_token_raises st e :
  requests_post w (token_request cfg) = Raised e ->
  get_spotify_token m cfg w st
  = (if is_RequestException e
     then Returned (failure 500 ("Request failed: " ++ exc_str e))
     else Raised e,
     extend st [EvPost (token_request cfg)]).
Proof.
  intros Hpost. unfold get_spotify_token. step. rewrite Hpost.
  destruct (is_RequestException e); reflexivity.
Qed.
End TokenStep.

(** ** The handler, path by path *)

Section Handler.
Variables (m : source_module) (cfg : config) (w : world).
Variables (event context : pyval).

Lemma lambda_handler_token_dict st d st1 :
  get_spotify_token m cfg w st = (Returned (PDict d), st1) ->
  lambda_handler m cfg w event context st = (Returned (PDict d), st1).
Proof.
  intros Htok. unfold lambda_handler, try_except, bind. rewrite Htok. reflexivity.
Qed.

Lemma lambda_handler_token_raised st e st1 :
  get_spotify_token m cfg w st = (Raised e, st1) ->
  lambda_handler m cfg w event context st = (Returned (caught e), st1).
Proof.
  intros Htok. unfold lambda_handler, try_except, bind. rewrite Htok. reflexivity.
Qed.

Lemma lambda_handler_fetch_raised st tok st1 e st2 :
  get_spotify_token m cfg w st = (Returned tok, st1) ->
  isinstance_dict tok = false ->
  get_recent_tracks w tok st1 = (Raised e, st2) ->
  lambda_handler m cfg w event context st = (Returned (caught e), st2).
Proof.
  intros Htok Hd Hfetch. unfold lambda_handler, try_except, bind.
  rewrite Htok, Hd, Hfetch. reflexivity.
Qed.

Lemma lambda_handler_save_raised st tok st1 recent_tracks st2 e st3 :
  get_spotify_token m cfg w st = (Returned tok, st1) ->
  isinstance_dict tok = false ->
  get_recent_tracks w tok st1 = (Returned recent_tracks, st2) ->
  save_to_s3 m cfg w recent_tracks (today_date w) st2 = (Raised e, st3) ->
  lambda_handler m cfg w event context st = (Returned (caught e), st3).
Proof.
  intros Htok Hd Hfetch Hsave. unfold lambda_handler, try_except at 1, bind.
  rewrite Htok, Hd, Hfetch. fold (today_date w). rewrite Hsave. reflexivity.
Qed.

Lemma lambda_handler_saved st tok st1 recent_tracks st2 result st3 :
  get_spotify_token m cfg w st = (Returned tok, st1) ->
  isinstance_dict tok = false ->
  get_recent_tracks w tok st1 = (Returned recent_tracks, st2) ->
  save_to_s3 m cfg w recent_tracks (today_date w) st2 = (Returned result, st3) ->
  lambda_handler m cfg w event context st
  = match count_items recent_tracks with
    | Returned n =>
        let result' := setitem result "metadata" (metadata cfg (today_date w) n) in
        (Returned result', extend st3 (diagnostic_events m result'))
    | Raised e => (Returned (caught e), st3)
    end.
Proof.
  intros Htok Hd Hfetch Hsave. unfold lambda_handler, try_except at 1.
  unfold bind at 1. rewrite Htok, Hd.
  unfold bind at 1. rewrite Hfetch.
  unfold bind at 1. fold (today_date w). rewrite Hsave.
  destruct recent_tracks as [| | | | |l|d]; try reflexivity.
  unfold bind at 1. unfold get_method, count_items.
  destruct (dict_lookup "items" d) as [[| | | | |l|l]|]; try reflexivity;
    unfold bind, len, ret; cbv beta iota; rewrite diagnostic_run; reflexivity.
Qed.
End Handler.

(** ** The fetch step *)

Lemma http_error_msg_4xx_5xx r :
  400 <= status_code r < 600 -> http_error_msg r <> "".
Proof.
  intros H. unfold http_error_msg.
  destruct ((400 <=? status_code r) && (status_code r <? 500)) eqn:E4.
  - destruct (str_int (status_code r)); discriminate.
  - destruct ((500 <=? status_code r) && (status_code r <? 600)) eqn:E5.
    + destruct (str_int (status_code r)); discriminate.
    + exfalso. apply andb_false_iff in E4, E5.
      rewrite !Z.leb_gt, !Z.ltb_ge in *. lia.
Qed.

Lemma http_error_msg_other r :
  ~ 400 <= status_code r < 600 -> http_error_msg r = "".
Proof.
  intros H. unfold http_error_msg.
  destruct ((400 <=? status_code r) && (status_code r <? 500)) eqn:E4.
  - apply andb_true_iff in E4. rewrite Z.leb_le, Z.ltb_lt in E4. lia.
  - destruct ((500 <=? status_code r) && (status_code r <? 600)) eqn:E5; [|done].
    apply andb_true_iff in E5. rewrite Z.leb_le, Z.ltb_lt in E5. lia.
Qed.

Section FetchStep.
Variables (w : world) (access_token : pyval).

(** A 4xx or 5xx response: the [HTTPError] of [raise_for_status] is
    caught and raised again as a plain [Exception]. *)
Lemma get_recent_tracks_4xx_5xx st resp :
  requests_get w (tracks_request access_token) = Returned resp ->
  400 <= status_code resp < 600 ->
  get_recent_tracks w access_token st
  = (Raised (mk_exn Exception_
               ("Failed to fetch recent tracks: " ++ http_error_msg resp)),
     extend st [EvGet (tracks_request access_token)]).
Proof.
  intros Hget Hst. unfold get_recent_tracks. step. rewrite Hget.
  unfold raise_for_status.
  destruct (String.eqb_spec (http_error_msg resp) "") as [E|E].
  - by apply http_error_msg_4xx_5xx in Hst.
  - reflexivity.
Qed.

(** Any other status: the decoded body is returned as it is. *)
Lemma get_recent_tracks_other st resp recent_tracks :
  requests_get w (tracks_request access_token) = Returned resp ->
  ~ 400 <= status_code resp < 600 ->
  json resp = Returned recent_tracks ->
  get_recent_tracks w access_token st
  = (Returned recent_tracks, extend st [EvGet (tracks_request access_token)]).
Proof.
  intros Hget Hst Hjson. unfold get_recent_tracks. step. rewrite Hget.
  unfold raise_for_status. rewrite (http_error_msg_other _ Hst). simpl.
  rewrite Hjson. reflexivity.
Qed.

(** Whatever happens, the step starts with the GET and stores nothing. *)
Lemma get_recent_tracks_state st :
  snd (get_recent_tracks w access_token st)
  = extend st [EvGet (tracks_request access_token)].
Proof.
  unfold get_recent_tracks. step.
  destruct (requests_get w (tracks_request access_token)) as [resp|e]; simpl.
  - unfold raise_for_status.
    destruct (String.eqb (http_error_msg resp) ""); simpl.
    + destruct (json resp) as [v|e]; simpl; [done|].
      destruct (is_RequestException e); reflexivity.
    + reflexivity.
  - destruct (is_RequestException e); reflexivity.
Qed.
End FetchStep.

(** ** The store step *)

Section StoreStep.
Variables (m : source_module) (cfg : config) (w : world).
Variables (data : pyval) (date : string).

(** [save_to_s3] returns only after a write, and the write is the
    payload's serialization under (bucket, key). *)
Lemma save_to_s3_returned st result st' :
  save_to_s3 m cfg w data date st = (Returned result, st') ->
  exists b,
    RAW_S3_BUCKET_NAME cfg = Some b /\ b ∈ buckets st /\
    result = saved m b date /\
    st' = {| buckets := buckets st;
             objects := <[(b, key m date) := stored data]> (objects st);
             trace := trace st ++ store_events m cfg data date (Some b) |}.
Proof.
  unfold save_to_s3, boto3_client, put_object. step.
  destruct (boto3_client_fault w); [discriminate|]. simpl.
  destruct (RAW_S3_BUCKET_NAME cfg) as [b|]; [|discriminate]. simpl.
  destruct (String.eqb b ""); [discriminate|].
  destruct (put_object_fault w); [discriminate|]. simpl.
  destruct (decide (b ∈ buckets st)) as [Hin|Hin]; simpl; [|discriminate].
  intros [= <- <-]. exists b. repeat split; try done.
  by rewrite <- app_assoc.
Qed.

(** When [save_to_s3] raises, the objects are as before. *)
Lemma save_to_s3_raised st e st' :
  save_to_s3 m cfg w data date st = (Raised e, st') ->
  objects st' = objects st /\ buckets st' = buckets st.
Proof.
  unfold save_to_s3, boto3_client, put_object. step.
  destruct (boto3_client_fault w); [by intros [= <- <-]|]. simpl.
  destruct (RAW_S3_BUCKET_NAME cfg) as [b|]; [|by intros [= <- <-]]. simpl.
  destruct (String.eqb b ""); [by intros [= <- <-]|].
  destruct (put_object_fault w); [by intros [= <- <-]|]. simpl.
  destruct (decide (b ∈ buckets st)) as [Hin|Hin]; simpl; [discriminate|].
  by intros [= <- <-].
Qed.

(** With a configured, existing bucket and no fault, [save_to_s3]
    returns. *)
Lemma save_to_s3_ok st b :
  boto3_client_fault w = None -> put_object_fault w = None ->
  RAW_S3_BUCKET_NAME cfg = Some b -> b <> "" -> b ∈ buckets st ->
  save_to_s3 m cfg w data date st
  = (Returned (saved m b date),
     {| buckets := buckets st;
        objects := <[(b, key m date) := stored data]> (objects st);
        trace := trace st ++ store_events m cfg data date (Some b) |}).
Proof.
  intros Hc Hp Hb Hne Hin. unfold save_to_s3, boto3_client, put_object. step.
  rewrite Hc, Hb; simpl. apply String.eqb_neq in Hne. rewrite Hne, Hp. simpl.
  destruct (decide (b ∈ buckets st)); [|done]. simpl.
  by rewrite <- app_assoc.
Qed.
(** Whatever happens, the step starts by asking for the client. *)
Lemma save_to_s3_state st :
  exists evs,
    trace (snd (save_to_s3 m cfg w data date st))
    = (trace st ++ EvClient "s3" (AWS_REGION cfg) :: evs)%list.
Proof.
  unfold save_to_s3, boto3_client, put_object. step.
  destruct (boto3_client_fault w); [by exists []|]. simpl.
  destruct (RAW_S3_BUCKET_NAME cfg) as [b|]; simpl;
    [|eexists; by rewrite <- app_assoc].
  destruct (String.eqb b ""); simpl; [eexists; by rewrite <- app_assoc|].
  destruct (put_object_fault w); simpl; [eexists; by rewrite <- app_assoc|].
  destruct (decide (b ∈ buckets st)); simpl; eexists; by rewrite <- app_assoc.
Qed.
End StoreStep.

(** ** Effects of the steps on the state *)

(** The token step sends its POST, may print, and does nothing else. *)
Lemma get_spotify_token_state m cfg w st :
  exists evs,
    snd (get_spotify_token m cfg w st) = extend st (EvPost (token_request cfg) :: evs)
    /\ existsb fetch_or_store evs = false.
Proof.
  destruct (requests_post w (token_request cfg)) as [resp|e] eqn:Hpost.
  - destruct (Z.eq_dec (status_code resp) 200) as [H200|Hne].
    + destruct (json resp) as [auth_data|e] eqn:Hjson.
      * rewrite (get_spotify_token_200 m cfg w st resp auth_data Hpost H200 Hjson).
        eexists; split; [reflexivity|]. by destruct m.
      * exists []. split; [|done]. unfold get_spotify_token. step.
        rewrite Hpost, H200. simpl. rewrite Hjson.
        destruct (is_RequestException e); reflexivity.
    + rewrite (get_spotify_token_non_200 m cfg w st resp Hpost Hne).
      eexists; split; [reflexivity|]. by destruct m.
  - rewrite (get_spotify_token_raises m cfg w st e Hpost).
    exists []. by split.
Qed.

(** In a successful run the write took place: the final objects are those
    before the run with the payload's serialization put under
    (bucket, key), and the handler's answer is the descriptor of
    [save_to_s3] with the metadata attached. *)
Lemma successful_run_inv m cfg w event context st recent_tracks st' :
  successful_run m cfg w event context st recent_tracks st' ->
  exists b n,
    RAW_S3_BUCKET_NAME cfg = Some b /\
    b ∈ buckets st /\
    count_items recent_tracks = Returned n /\
    fst (lambda_handler m cfg w event context st)
    = Returned (setitem (saved m b (today_date w)) "metadata"
                  (metadata cfg (today_date w) n)) /\
    buckets st' = buckets st /\
    objects st' = <[(b, key m (today_date w)) := stored recent_tracks]> (objects st).
Proof.
  intros (tok & st1 & st2 & result & Htok & Hd & Hfetch & Hrun & H200).
  destruct (get_spotify_token_state m cfg w st) as (evs & Hst1 & _).
  rewrite Htok in Hst1; simpl in Hst1.
  pose proof (get_recent_tracks_state w tok st1) as Hst2.
  rewrite Hfetch in Hst2; simpl in Hst2.
  destruct (save_to_s3 m cfg w recent_tracks (today_date w) st2)
    as [[r|e] st3] eqn:Hsave.
  - destruct (save_to_s3_returned _ _ _ _ _ _ _ _ Hsave) as (b & Hb & Hin & -> & ->).
    rewrite (lambda_handler_saved _ _ _ _ _ _ _ _ _ _ _ _ Htok Hd Hfetch Hsave) in Hrun |- *.
    destruct (count_items recent_tracks) as [n|e].
    + exists b, n. simpl in Hrun. injection Hrun as <- <-.
      subst st2 st1. simpl in *. by repeat split.
    + injection Hrun as <- <-. discriminate.
  - rewrite (lambda_handler_save_raised _ _ _ _ _ _ _ _ _ _ _ _ Htok Hd Hfetch Hsave) in Hrun.
    injection Hrun as <- <-. discriminate.
Qed.

(** A concrete run is checked by computing its outcome; its final state is
    named, not computed. *)
Lemma pair_of_fst {A B} (p : A * B) (a : A) : fst p = a -> p = (a, snd p).
Proof. intros <-. apply surjective_pairing. Qed.

Ltac run_eq := apply pair_of_fst; vm_compute; reflexivity.

Ltac sample_run m w st tok :=
  exists tok, (snd (get_spotify_token m cfg0 w st)),
    (snd (get_recent_tracks w tok (snd (get_spotify_token m cfg0 w st))));
  eexists; split; [run_eq|]; split; [done|]; split; [run_eq|]; split; [run_eq|];
  reflexivity.

(** * The claims *)

(** C1.  When the token endpoint answers with a status other than 200,
    [get_spotify_token] returns the dict whose [statusCode] is that status
    and whose [body] is the response text, and [lambda_handler] returns the
    same dict in the same state: the run consists of the POST (and the
    print of [lambda_function.py]), with no event of [get_recent_tracks] or
    [save_to_s3], and the stored objects are untouched. *)
Theorem C1_token_failure_short_circuits m cfg w event context st resp :
  requests_post w (token_request cfg) = Returned resp ->
  status_code resp <> 200 ->
  let d := PDict [("statusCode", PInt (status_code resp)); ("body", PStr (text resp))] in
  exists st' evs,
    get_spotify_token m cfg w st = (Returned d, st') /\
    lambda_handler m cfg w event context st = (Returned d, st') /\
    st' = extend st evs /\
    evs = EvPost (token_request cfg) :: diagnostic_events m d /\
    existsb fetch_or_store evs = false /\
    objects st' = objects st.
Proof.
  intros Hpost Hne d.
  pose proof (get_spotify_token_non_200 m cfg w st resp Hpost Hne) as Htok.
  do 2 eexists. split; [exact Htok|].
  split; [exact (lambda_handler_token_dict m cfg w event context st _ _ Htok)|].
  split; [reflexivity|]. split; [reflexivity|]. split; [by destruct m | reflexivity].
Qed.

Lemma C1_witness :
  exists st' evs,
    get_spotify_token lambda_function cfg0 w_401 st0
    = (Returned (PDict [("statusCode", PInt 401);
                        ("body", PStr (json_dumps None
                                         (PDict [("error", PStr "invalid_client")])))]),
       st') /\
    lambda_handler lambda_function cfg0 w_401 PNone PNone st0
    = (Returned (PDict [("statusCode", PInt 401);
                        ("body", PStr (json_dumps None
                                         (PDict [("error", PStr "invalid_client")])))]),
       st') /\
    st' = extend st0 evs /\
    evs = EvPost (token_request cfg0)
          :: diagnostic_events lambda_function
               (PDict [("statusCode", PInt 401);
                       ("body", PStr (json_dumps None
                                        (PDict [("error", PStr "invalid_client")])))]) /\
    existsb fetch_or_store evs = false /\
    objects st' = objects st0.
Proof.
  apply (C1_token_failure_short_circuits lambda_function cfg0 w_401 PNone PNone st0
           (token_response 401 "Unauthorized" (PDict [("error", PStr "invalid_client")]))).
  - reflexivity.
  - simpl. lia.
Defined.



(** C9.  When the token request itself fails with a [RequestException]
    (timeout, connection error), [get_spotify_token] does not raise: it
    returns the dict with [statusCode] 500 and the body
    ['Request failed: ' + str(e)]. *)
Theorem C9_token_network_failure m cfg w st e :
  requests_post w (token_request cfg) = Raised e ->
  is_RequestException e = true ->
  get_spotify_token m cfg w st
  = (Returned (PDict [("statusCode", PInt 500);
                      ("body", PStr ("Request failed: " ++ exc_str e))]),
     extend st [EvPost (token_request cfg)]).
Proof.
  intros Hpost He.
  rewrite (get_spotify_token_raises m cfg w st e Hpost), He. reflexivity.
Qed.

Lemma C9_witness :
  get_spotify_token lambda_function cfg0 w_timeout st0
  = (Returned (PDict [("statusCode", PInt 500);
                      ("body", PStr "Request failed: Read timed out. (read timeout=10)")]),
     extend st0 [EvPost (token_request cfg0)]).
Proof.
  apply (C9_token_network_failure lambda_function cfg0 w_timeout st0
           (mk_exn Timeout_ "Read timed out. (read timeout=10)"));
    reflexivity.
Defined.

(** The result of the catch-all is never the token step's
    ['Request failed: ...'] failure: its body starts with a brace. *)
Lemma caught_not_request_failed e msg :
  caught e <> failure 500 ("Request failed: " ++ msg).
Proof. unfold caught, failure, json_dumps. simpl. intros [= H]. Qed.

(** C10 (as amended).  When the token endpoint answers 200 with a JSON body
    that has no [access_token] field, the subscript of line 61 raises: a
    [KeyError] (['access_token']) when the body is a JSON object, a
    [TypeError] when it is any other JSON value (an array, a string, a
    number, [null]).  Neither is a [RequestException], so the
    [except requests.RequestException] clause does not catch it; the
    [except Exception] clause of [lambda_handler] turns it into
    [statusCode] 500 with the JSON text of [{"error": str(e)}] as body.
    That result is neither of the two failures the token step itself builds
    (upstream status with the raw response text, or 500 with
    ['Request failed: ...']), and nothing is fetched or stored. *)
Theorem C10_missing_access_token m cfg w event context st resp auth_data :
  requests_post w (token_request cfg) = Returned resp ->
  status_code resp = 200 ->
  json resp = Returned auth_data ->
  has_access_token auth_data = false ->
  exists e st',
    get_spotify_token m cfg w st = (Raised e, st') /\
    (isinstance_dict auth_data = true -> e = mk_exn KeyError "'access_token'") /\
    (isinstance_dict auth_data = false -> exc_type e = TypeError) /\
    is_RequestException e = false /\
    lambda_handler m cfg w event context st
    = (Returned
         (PDict [("statusCode", PInt 500);
                 ("body", PStr (json_dumps None (PDict [("error", PStr (exc_str e))])))]),
       st') /\
    (isinstance_dict auth_data = true ->
     json_dumps None (PDict [("error", PStr (exc_str e))])
     = "{" ++ quoted "error" ++ ": " ++ quoted "'access_token'" ++ "}") /\
    PDict [("statusCode", PInt 500);
           ("body", PStr (json_dumps None (PDict [("error", PStr (exc_str e))])))]
    <> failure (status_code resp) (text resp) /\
    (forall msg,
        PDict [("statusCode", PInt 500);
               ("body", PStr (json_dumps None (PDict [("error", PStr (exc_str e))])))]
        <> failure 500 ("Request failed: " ++ msg)) /\
    st' = extend st (EvPost (token_request cfg)
                     :: diagnostic_events m (PStr "Token Generated")) /\
    objects st' = objects st.
Proof.
  intros Hpost H200 Hjson Hnone.
  pose proof (get_spotify_token_200 m cfg w st resp _ Hpost H200 Hjson) as Htok.
  assert (He : exists e,
             fst (getitem auth_data "access_token" st) = Raised e /\
             (isinstance_dict auth_data = true -> e = mk_exn KeyError "'access_token'") /\
             (isinstance_dict auth_data = false -> exc_type e = TypeError) /\
             is_RequestException e = false).
  { destruct auth_data as [| | | | | |d]; simpl; try (by eexists).
    unfold has_access_token, dict_contains in Hnone.
    destruct (dict_lookup "access_token" d); [discriminate|]. by eexists. }
  destruct He as (e & He & Hkey & Htype & Hreq).
  rewrite He in Htok.
  exists e. eexists. split; [exact Htok|].
  split; [exact Hkey|]. split; [exact Htype|]. split; [exact Hreq|].
  split; [exact (lambda_handler_token_raised m cfg w event context st _ _ Htok)|].
  split; [by intros ->%Hkey|].
  split; [rewrite H200; discriminate|].
  split; [exact (caught_not_request_failed e)|].
  split; reflexivity.
Qed.

Lemma C10_witness :
  exists e st',
    get_spotify_token lambda_function cfg0 w_no_token st0 = (Raised e, st') /\
    (isinstance_dict (PDict [("token_type", PStr "Bearer")]) = true ->
     e = mk_exn KeyError "'access_token'") /\
    (isinstance_dict (PDict [("token_type", PStr "Bearer")]) = false ->
     exc_type e = TypeError) /\
    is_RequestException e = false /\
    lambda_handler lambda_function cfg0 w_no_token PNone PNone st0
    = (Returned
         (PDict [("statusCode", PInt 500);
                 ("body", PStr (json_dumps None (PDict [("error", PStr (exc_str e))])))]),
       st') /\
    (isinstance_dict (PDict [("token_type", PStr "Bearer")]) = true ->
     json_dumps None (PDict [("error", PStr (exc_str e))])
     = "{" ++ quoted "error" ++ ": " ++ quoted "'access_token'" ++ "}") /\
    PDict [("statusCode", PInt 500);
           ("body", PStr (json_dumps None (PDict [("error", PStr (exc_str e))])))]
    <> failure
         (status_code (token_response 200 "OK" (PDict [("token_type", PStr "Bearer")])))
         (text (token_response 200 "OK" (PDict [("token_type", PStr "Bearer")]))) /\
    (forall msg,
        PDict [("statusCode", PInt 500);
               ("body", PStr (json_dumps None (PDict [("error", PStr (exc_str e))])))]
        <> failure 500 ("Request failed: " ++ msg)) /\
    st' = extend st0 (EvPost (token_request cfg0)
                      :: diagnostic_events lambda_function (PStr "Token Generated")) /\
    objects st' = objects st0.
Proof.
  apply (C10_missing_access_token lambda_function cfg0 w_no_token PNone PNone st0
           (token_response 200 "OK" (PDict [("token_type", PStr "Bearer")]))
           (PDict [("token_type", PStr "Bearer")]));
    reflexivity.
Defined.

(** The claim as stated fails on a body that is JSON but not an object: the
    array [[]] has no [access_token] field, the status is 200, and what
    [get_spotify_token] raises is a [TypeError], not a [KeyError]; the
    handler's error text is not that of the [KeyError] either. *)
Lemma C10_counterexample :
  requests_post w_token_array (token_request cfg0)
  = Returned (token_response 200 "OK" (PList [])) /\
  has_access_token (PList []) = false /\
  fst (get_spotify_token lambda_function cfg0 w_token_array st0)
  = Raised (mk_exn TypeError "list indices must be integers or slices, not str") /\
  fst (get_spotify_token lambda_function cfg0 w_token_array st0)
  <> Raised (mk_exn KeyError "'access_token'") /\
  fst (lambda_handler lambda_function cfg0 w_token_array PNone PNone st0)
  = Returned
      (PDict [("statusCode", PInt 500);
              ("body",
               PStr ("{" ++ quoted "error" ++ ": "
                     ++ quoted "list indices must be integers or slices, not str" ++ "}"))]).
Proof.
  repeat split; try (vm_compute; reflexivity).
  vm_compute. intros H. discriminate H.
Qed.

(** A body that is valid JSON but not an object has no members at all; the
    subscript then raises [TypeError], which takes the same way through the
    handler. *)
Lemma get_spotify_token_not_an_object m cfg w event context st resp auth_data :
  requests_post w (token_request cfg) = Returned resp ->
  status_code resp = 200 ->
  json resp = Returned auth_data ->
  isinstance_dict auth_data = false ->
  exists msg st',
    get_spotify_token m cfg w st = (Raised (mk_exn TypeError msg), st') /\
    lambda_handler m cfg w event context st
    = (Returned (caught (mk_exn TypeError msg)), st').
Proof.
  intros Hpost H200 Hjson Hd.
  pose proof (get_spotify_token_200 m cfg w st resp _ Hpost H200 Hjson) as Htok.
  destruct auth_data; try discriminate; simpl in Htok;
    (do 2 eexists; split; [exact Htok|];
     exact (lambda_handler_token_raised m cfg w event context st _ _ Htok)).
Qed.

(** A dict that the token step returns is one of its two failures, or the
    [access_token] member of a 200 response. *)
Lemma get_spotify_token_dict_inv m cfg w st d st1 :
  get_spotify_token m cfg w st = (Returned (PDict d), st1) ->
  (exists status body, PDict d = failure status body) \/
  (exists resp auth_data,
      requests_post w (token_request cfg) = Returned resp /\
      status_code resp = 200 /\
      json resp = Returned (PDict auth_data) /\
      dict_lookup "access_token" auth_data = Some (PDict d)).
Proof.
  destruct (requests_post w (token_request cfg)) as [resp|e] eqn:Hpost.
  - destruct (Z.eq_dec (status_code resp) 200) as [H200|Hne].
    + destruct (json resp) as [auth_data|e] eqn:Hjson.
      * rewrite (get_spotify_token_200 m cfg w st resp auth_data Hpost H200 Hjson).
        destruct auth_data as [| | | | | |auth_data]; try discriminate. simpl.
        destruct (dict_lookup "access_token" auth_data) as [v|] eqn:Hv; [|discriminate].
        simpl. intros [= -> _]. right. by exists resp, auth_data.
      * unfold get_spotify_token. step. rewrite Hpost, H200. simpl. rewrite Hjson.
        destruct (is_RequestException e); [|discriminate].
        intros [= <- _]. left. by do 2 eexists.
    + rewrite (get_spotify_token_non_200 m cfg w st resp Hpost Hne).
      intros [= <- _]. left. by do 2 eexists.
  - rewrite (get_spotify_token_raises m cfg w st e Hpost).
    destruct (is_RequestException e); [|discriminate].
    intros [= <- _]. left. by do 2 eexists.
Qed.

(** The one way for a dict without [statusCode] to come out of the handler:
    a 200 token response whose [access_token] is itself a JSON object is
    returned as it is. *)
Lemma lambda_handler_returns_token_object m cfg w event context st resp auth_data d :
  requests_post w (token_request cfg) = Returned resp ->
  status_code resp = 200 ->
  json resp = Returned (PDict auth_data) ->
  dict_lookup "access_token" auth_data = Some (PDict d) ->
  fst (lambda_handler m cfg w event context st) = Returned (PDict d).
Proof.
  intros Hpost H200 Hjson Hv.
  pose proof (get_spotify_token_200 m cfg w st resp _ Hpost H200 Hjson) as Htok.
  simpl in Htok. rewrite Hv in Htok. simpl in Htok.
  by rewrite (lambda_handler_token_dict m cfg w event context st _ _ Htok).
Qed.

(** Whatever the event and the context, whatever the clock, the two
    endpoints and the storage client do (answer, fail or raise),
    [lambda_handler] returns, never raises, and what it returns is a dict.
    The dict has a [statusCode] key on every path but one: when the token
    endpoint answers 200 with an [access_token] that is itself a JSON
    object, the [isinstance] check of line 146 takes that object for the
    error response of the token step and line 147 returns it. *)
Lemma lambda_handler_returns_dict m cfg w event context st :
  exists d st',
    lambda_handler m cfg w event context st = (Returned (PDict d), st') /\
    (dict_contains "statusCode" d = true \/
     exists resp auth_data,
       requests_post w (token_request cfg) = Returned resp /\
       status_code resp = 200 /\
       json resp = Returned (PDict auth_data) /\
       dict_lookup "access_token" auth_data = Some (PDict d)).
Proof.
  destruct (get_spotify_token m cfg w st) as [[tok|e] st1] eqn:Htok.
  - destruct (isinstance_dict tok) eqn:Hd.
    + destruct tok as [| | | | | |d]; try discriminate.
      exists d, st1.
      split; [exact (lambda_handler_token_dict m cfg w event context st _ _ Htok)|].
      destruct (get_spotify_token_dict_inv _ _ _ _ _ _ Htok)
        as [(status & body & [= ->])|Hobj]; [by left|by right].
    + destruct (get_recent_tracks w tok st1) as [[recent_tracks|e] st2] eqn:Hfetch.
      * destruct (save_to_s3 m cfg w recent_tracks (today_date w) st2)
          as [[result|e] st3] eqn:Hsave.
        -- rewrite (lambda_handler_saved _ _ _ _ _ _ _ _ _ _ _ _ Htok Hd Hfetch Hsave).
           destruct (save_to_s3_returned _ _ _ _ _ _ _ _ Hsave) as (b & _ & _ & -> & _).
           destruct (count_items recent_tracks) as [n|e];
             (do 2 eexists; split; [reflexivity|by left]).
        -- rewrite (lambda_handler_save_raised _ _ _ _ _ _ _ _ _ _ _ _ Htok Hd Hfetch Hsave).
           do 2 eexists; split; [reflexivity|by left].
      * rewrite (lambda_handler_fetch_raised _ _ _ _ _ _ _ _ _ _ Htok Hd Hfetch).
        do 2 eexists; split; [reflexivity|by left].
  - rewrite (lambda_handler_token_raised _ _ _ _ _ _ _ _ Htok).
    do 2 eexists; split; [reflexivity|by left].
Qed.

(** C6.  The handler does not always return a dict with a [statusCode]
    key, as its docstring ([Response with status code and body]), the
    comment of line 146 ([Error response]) and [test_lambda_handler_output]
    have it.  When the token endpoint answers 200 with a JSON object whose
    [access_token] is the object [{'value': 'BQDtoken'}], the token step
    returns that inner object, the handler takes it for an error response
    and returns it: a dict without [statusCode].  Nothing is fetched or
    stored. *)
Theorem C6_token_object_returned_without_statusCode :
  requests_post w_token_object (token_request cfg0)
  = Returned (token_response 200 "OK"
                (PDict [("access_token", PDict [("value", PStr "BQDtoken")]);
                        ("token_type", PStr "Bearer")])) /\
  fst (get_spotify_token lambda_function cfg0 w_token_object st0)
  = Returned (PDict [("value", PStr "BQDtoken")]) /\
  fst (lambda_handler lambda_function cfg0 w_token_object (PDict []) (PDict []) st0)
  = Returned (PDict [("value", PStr "BQDtoken")]) /\
  dict_contains "statusCode" [("value", PStr "BQDtoken")] = false /\
  trace (snd (lambda_handler lambda_function cfg0 w_token_object (PDict []) (PDict []) st0))
  = [EvPost (token_request cfg0); EvPrint (PStr "Token Generated")].
Proof.
  repeat split; vm_compute; reflexivity.
Qed.

(** C2.  In every successful run the object read back from the bucket under
    the run's key has, as its bytes, the UTF-8 encoding of
    [json.dumps(recent_tracks, indent=2)] for the payload [recent_tracks]
    that [get_recent_tracks] returned, and the content type
    [application/json]; the [put_object] call that wrote it is in the
    trace with that text and that content type. *)
Theorem C2_stored_object_is_pretty_printed_payload
    m cfg w event context st recent_tracks st' :
  successful_run m cfg w event context st recent_tracks st' ->
  exists b,
    RAW_S3_BUCKET_NAME cfg = Some b /\
    get_object st' b (key m (today_date w))
    = Some {| Body := utf8_encode (json_dumps (Some 2%nat) recent_tracks);
              ContentType := "application/json" |} /\
    EvPutObject (Some b) (key m (today_date w))
      (json_dumps (Some 2%nat) recent_tracks) "application/json" ∈ trace st'.
Proof.
  intros Hrun.
  destruct (successful_run_inv _ _ _ _ _ _ _ _ Hrun) as (b & n & Hb & _ & Hn & _ & _ & Hobj).
  exists b. split; [done|]. split.
  - unfold get_object. rewrite Hobj. apply lookup_insert_eq.
  - destruct Hrun as (tok & st1 & st2 & result & Htok & Hd & Hfetch & Hrun & H200).
    destruct (save_to_s3 m cfg w recent_tracks (today_date w) st2)
      as [[r|e] st3] eqn:Hsave.
    + rewrite (lambda_handler_saved _ _ _ _ _ _ _ _ _ _ _ _ Htok Hd Hfetch Hsave), Hn in Hrun.
      destruct (save_to_s3_returned _ _ _ _ _ _ _ _ Hsave) as (b' & Hb' & _ & _ & ->).
      injection Hrun as _ <-. simpl. rewrite Hb in Hb'. injection Hb' as <-.
      unfold store_events. set_solver.
    + rewrite (lambda_handler_save_raised _ _ _ _ _ _ _ _ _ _ _ _ Htok Hd Hfetch Hsave) in Hrun.
      injection Hrun as <- _. discriminate.
Qed.

Lemma C2_witness :
  exists b,
    RAW_S3_BUCKET_NAME cfg0 = Some b /\
    get_object (snd (lambda_handler lambda_function cfg0 w_ok PNone PNone st0)) b
      (key lambda_function (today_date w_ok))
    = Some {| Body := utf8_encode (json_dumps (Some 2%nat) payload0);
              ContentType := "application/json" |} /\
    EvPutObject (Some b) (key lambda_function (today_date w_ok))
      (json_dumps (Some 2%nat) payload0) "application/json"
    ∈ trace (snd (lambda_handler lambda_function cfg0 w_ok PNone PNone st0)).
Proof.
  apply (C2_stored_object_is_pretty_printed_payload lambda_function cfg0 w_ok PNone PNone st0).
  sample_run lambda_function w_ok st0 (PStr "BQDtoken").
Defined.

(** C7.  Two successful runs, one after the other, whose handlers compute
    the same date: both write under the same (bucket, key), since the key
    is computed from the date alone.  After the first run the object there
    is the first payload; after the second it is the second payload, the
    objects are what the second run alone would have left, and no object
    has been added: the second run overwrites the first. *)
Theorem C7_same_day_runs_overwrite
    m cfg w1 w2 event1 context1 event2 context2 st payload st1 payload' st2 :
  successful_run m cfg w1 event1 context1 st payload st1 ->
  successful_run m cfg w2 event2 context2 st1 payload' st2 ->
  today_date w1 = today_date w2 ->
  exists b,
    RAW_S3_BUCKET_NAME cfg = Some b /\
    key m (today_date w1) = key m (today_date w2) /\
    get_object st1 b (key m (today_date w1)) = Some (stored payload) /\
    get_object st2 b (key m (today_date w2)) = Some (stored payload') /\
    objects st2 = <[(b, key m (today_date w2)) := stored payload']> (objects st) /\
    dom (objects st2) = dom (objects st1).
Proof.
  intros Hrun1 Hrun2 Hdate.
  destruct (successful_run_inv _ _ _ _ _ _ _ _ Hrun1) as (b & n & Hb & _ & _ & _ & _ & Hobj1).
  destruct (successful_run_inv _ _ _ _ _ _ _ _ Hrun2) as (b' & n' & Hb' & _ & _ & _ & _ & Hobj2).
  rewrite Hb in Hb'. injection Hb' as <-.
  exists b. unfold get_object. rewrite Hobj2, Hobj1, Hdate.
  split; [done|]. split; [done|].
  split; [apply lookup_insert_eq|]. split; [apply lookup_insert_eq|].
  split; [apply insert_insert_eq|].
  rewrite !dom_insert_L. by rewrite union_assoc_L, union_idemp_L.
Qed.

Lemma C7_witness :
  exists b,
    RAW_S3_BUCKET_NAME cfg0 = Some b /\
    key lambda_function (today_date w_ok) = key lambda_function (today_date w_ok') /\
    get_object (snd (lambda_handler lambda_function cfg0 w_ok PNone PNone st0)) b
      (key lambda_function (today_date w_ok))
    = Some (stored payload0) /\
    get_object
      (snd (lambda_handler lambda_function cfg0 w_ok' PNone PNone
              (snd (lambda_handler lambda_function cfg0 w_ok PNone PNone st0)))) b
      (key lambda_function (today_date w_ok'))
    = Some (stored payload1) /\
    objects
      (snd (lambda_handler lambda_function cfg0 w_ok' PNone PNone
              (snd (lambda_handler lambda_function cfg0 w_ok PNone PNone st0))))
    = <[(b, key lambda_function (today_date w_ok')) := stored payload1]> (objects st0) /\
    dom (objects
           (snd (lambda_handler lambda_function cfg0 w_ok' PNone PNone
                   (snd (lambda_handler lambda_function cfg0 w_ok PNone PNone st0)))))
    = dom (objects (snd (lambda_handler lambda_function cfg0 w_ok PNone PNone st0))).
Proof.
  apply (C7_same_day_runs_overwrite lambda_function cfg0 w_ok w_ok'
           PNone PNone PNone PNone st0 payload0
           (snd (lambda_handler lambda_function cfg0 w_ok PNone PNone st0)) payload1).
  - sample_run lambda_function w_ok st0 (PStr "BQDtoken").
  - sample_run lambda_function w_ok'
      (snd (lambda_handler lambda_function cfg0 w_ok PNone PNone st0)) (PStr "BQDtoken").
  - reflexivity.
Defined.

(** C3 (as amended).  For every date string [d], the Writer of
    [get_spotify_api_data/lambda_function.py] passes the key
    [<d>/<d>_recent_tracks.json] to [put_object] and, when it returns, the
    object is stored under that key; the Writer of
    [lambda_spotify_get_user_recent_played.py] uses [<d>/recent_tracks.json]
    instead.  With ['2024-01-15'] the first one stores at
    [2024-01-15/2024-01-15_recent_tracks.json]. *)
Theorem C3_storage_key m cfg w data d st result st' :
  save_to_s3 m cfg w data d st = (Returned result, st') ->
  let k := match m with
           | lambda_function => d ++ "/" ++ d ++ "_recent_tracks.json"
           | lambda_spotify_get_user_recent_played => d ++ "/recent_tracks.json"
           end in
  exists b,
    RAW_S3_BUCKET_NAME cfg = Some b /\
    EvPutObject (Some b) k (json_dumps (Some 2%nat) data) "application/json" ∈ trace st' /\
    get_object st' b k = Some (stored data) /\
    result = PDict [("statusCode", PInt 200);
                    ("body", PStr ("Data saved to s3://" ++ b ++ "/" ++ k))] /\
    (m = lambda_function -> d = "2024-01-15" ->
     get_object st' b "2024-01-15/2024-01-15_recent_tracks.json" = Some (stored data)).
Proof.
  intros Hsave k.
  destruct (save_to_s3_returned _ _ _ _ _ _ _ _ Hsave) as (b & Hb & _ & -> & ->).
  assert (Hk : key m d = k) by (by destruct m).
  exists b. unfold get_object, store_events, saved. simpl. rewrite Hk.
  split; [done|]. split; [set_solver|]. split; [apply lookup_insert_eq|].
  split; [done|]. intros -> ->. apply lookup_insert_eq.
Qed.

Lemma C3_witness :
  exists b,
    RAW_S3_BUCKET_NAME cfg0 = Some b /\
    EvPutObject (Some b) ("2024-01-15" ++ "/" ++ "2024-01-15" ++ "_recent_tracks.json")
      (json_dumps (Some 2%nat) payload0) "application/json"
    ∈ trace (snd (save_to_s3 lambda_function cfg0 w_ok payload0 "2024-01-15" st0)) /\
    get_object (snd (save_to_s3 lambda_function cfg0 w_ok payload0 "2024-01-15" st0)) b
      ("2024-01-15" ++ "/" ++ "2024-01-15" ++ "_recent_tracks.json")
    = Some (stored payload0) /\
    PDict [("statusCode", PInt 200);
           ("body", PStr "Data saved to s3://raw-bucket/2024-01-15/2024-01-15_recent_tracks.json")]
    = PDict [("statusCode", PInt 200);
             ("body", PStr ("Data saved to s3://" ++ b ++ "/"
                            ++ ("2024-01-15" ++ "/" ++ "2024-01-15" ++ "_recent_tracks.json")))] /\
    (lambda_function = lambda_function -> "2024-01-15" = "2024-01-15" ->
     get_object (snd (save_to_s3 lambda_function cfg0 w_ok payload0 "2024-01-15" st0)) b
       "2024-01-15/2024-01-15_recent_tracks.json"
     = Some (stored payload0)).
Proof.
  apply (C3_storage_key lambda_function cfg0 w_ok payload0 "2024-01-15" st0).
  run_eq.
Defined.

(** The claim as stated fails on the second module: with ['2024-01-15'] its
    Writer returns normally, leaves nothing under
    [2024-01-15/2024-01-15_recent_tracks.json] and stores the object under
    [2024-01-15/recent_tracks.json]. *)
Lemma C3_counterexample :
  fst (save_to_s3 lambda_spotify_get_user_recent_played cfg0 w_ok payload0 "2024-01-15" st0)
  = Returned (saved lambda_spotify_get_user_recent_played "raw-bucket" "2024-01-15") /\
  get_object
    (snd (save_to_s3 lambda_spotify_get_user_recent_played cfg0 w_ok payload0 "2024-01-15" st0))
    "raw-bucket" "2024-01-15/2024-01-15_recent_tracks.json"
  = None /\
  get_object
    (snd (save_to_s3 lambda_spotify_get_user_recent_played cfg0 w_ok payload0 "2024-01-15" st0))
    "raw-bucket" "2024-01-15/recent_tracks.json"
  = Some (stored payload0) /\
  key lambda_spotify_get_user_recent_played "2024-01-15"
  <> "2024-01-15" ++ "/" ++ "2024-01-15" ++ "_recent_tracks.json".
Proof.
  repeat split; try (vm_compute; reflexivity). discriminate.
Qed.

Lemma existsb_store_event evs :
  existsb fetch_or_store evs = false -> existsb store_event evs = false.
Proof.
  induction evs as [|ev evs IH]; [done|]. simpl.
  intros [Hev Hevs]%orb_false_iff. rewrite (IH Hevs).
  by destruct ev.
Qed.

(** C4 (as amended).  When the recently-played endpoint answers with a 4xx
    or 5xx status, [get_recent_tracks] raises a plain [Exception] whose
    text is ['Failed to fetch recent tracks: '] followed by the text of the
    [HTTPError] (status, reason phrase and URL of the response); in a run
    where that happens the handler answers 500 with that text, no event of
    [save_to_s3] occurs and the stored objects are as before. *)
Theorem C4_fetch_error_status_no_write m cfg w event context st tok st1 resp :
  get_spotify_token m cfg w st = (Returned tok, st1) ->
  isinstance_dict tok = false ->
  requests_get w (tracks_request tok) = Returned resp ->
  400 <= status_code resp < 600 ->
  let http_error :=
    str_int (status_code resp)
    ++ (if status_code resp <? 500 then " Client Error: " else " Server Error: ")
    ++ reason resp ++ " for url: " ++ url resp in
  let e := mk_exn Exception_ ("Failed to fetch recent tracks: " ++ http_error) in
  (forall s, get_recent_tracks w tok s = (Raised e, extend s [EvGet (tracks_request tok)])) /\
  exists st' evs,
    lambda_handler m cfg w event context st
    = (Returned (PDict [("statusCode", PInt 500);
                        ("body", PStr (json_dumps None (PDict [("error", PStr (exc_str e))])))]),
       st') /\
    st' = extend st evs /\
    existsb store_event evs = false /\
    objects st' = objects st.
Proof.
  intros Htok Hd Hget Hst http_error e.
  assert (Hmsg : http_error_msg resp = http_error).
  { unfold http_error_msg, http_error.
    destruct (Z.ltb_spec (status_code resp) 500).
    - replace (400 <=? status_code resp) with true by (symmetry; apply Z.leb_le; lia).
      reflexivity.
    - replace (500 <=? status_code resp) with true by (symmetry; apply Z.leb_le; lia).
      replace (status_code resp <? 600) with true by (symmetry; apply Z.ltb_lt; lia).
      by rewrite andb_false_r. }
  assert (Hfetch : forall s,
             get_recent_tracks w tok s = (Raised e, extend s [EvGet (tracks_request tok)])).
  { intros s. rewrite (get_recent_tracks_4xx_5xx w tok s resp Hget Hst).
    by rewrite Hmsg. }
  split; [exact Hfetch|].
  destruct (get_spotify_token_state m cfg w st) as (evs & Hst1 & Hevs).
  rewrite Htok in Hst1; simpl in Hst1. subst st1.
  do 2 eexists.
  split; [exact (lambda_handler_fetch_raised m cfg w event context st _ _ _ _
                   Htok Hd (Hfetch _))|].
  rewrite extend_extend. split; [reflexivity|]. split; [|reflexivity].
  simpl. rewrite existsb_app. simpl.
  by rewrite (existsb_store_event _ Hevs).
Qed.

Lemma C4_witness :
  (forall s,
      get_recent_tracks w_tracks_401 (PStr "BQDtoken") s
      = (Raised (mk_exn Exception_
                   ("Failed to fetch recent tracks: "
                    ++ (str_int 401 ++ (if 401 <? 500 then " Client Error: "
                                        else " Server Error: ")
                        ++ "Unauthorized" ++ " for url: " ++ tracks_url))),
         extend s [EvGet (tracks_request (PStr "BQDtoken"))])) /\
  exists st' evs,
    lambda_handler lambda_function cfg0 w_tracks_401 PNone PNone st0
    = (Returned
         (PDict [("statusCode", PInt 500);
                 ("body",
                  PStr (json_dumps None
                          (PDict [("error",
                                   PStr ("Failed to fetch recent tracks: "
                                         ++ (str_int 401
                                             ++ (if 401 <? 500 then " Client Error: "
                                                 else " Server Error: ")
                                             ++ "Unauthorized" ++ " for url: "
                                             ++ tracks_url)))])))]),
       st') /\
    st' = extend st0 evs /\
    existsb store_event evs = false /\
    objects st' = objects st0.
Proof.
  apply (C4_fetch_error_status_no_write lambda_function cfg0 w_tracks_401 PNone PNone st0
           (PStr "BQDtoken") (snd (get_spotify_token lambda_function cfg0 w_tracks_401 st0))
           (tracks_response 401 "Unauthorized"
              (PDict [("error", PStr "The access token expired")]))).
  - run_eq.
  - reflexivity.
  - reflexivity.
  - simpl. lia.
Defined.

(** The claim as stated fails for a status that is neither 2xx nor 4xx/5xx:
    on a 300 response with a JSON body, [get_recent_tracks] returns that
    body, and the handler stores it and answers 200. *)
Lemma C4_counterexample :
  requests_get w_tracks_300 (tracks_request (PStr "BQDtoken"))
  = Returned (tracks_response 300 "Multiple Choices" payload1) /\
  ~ 200 <= status_code (tracks_response 300 "Multiple Choices" payload1) < 300 /\
  fst (get_spotify_token lambda_function cfg0 w_tracks_300 st0)
  = Returned (PStr "BQDtoken") /\
  fst (get_recent_tracks w_tracks_300 (PStr "BQDtoken")
         (snd (get_spotify_token lambda_function cfg0 w_tracks_300 st0)))
  = Returned payload1 /\
  fst (lambda_handler lambda_function cfg0 w_tracks_300 PNone PNone st0)
  = Returned (setitem (saved lambda_function "raw-bucket" "2024-01-15") "metadata"
                (metadata cfg0 "2024-01-15" 0)) /\
  get_object (snd (lambda_handler lambda_function cfg0 w_tracks_300 PNone PNone st0))
    "raw-bucket" "2024-01-15/2024-01-15_recent_tracks.json"
  = Some (stored payload1).
Proof.
  repeat split; try (vm_compute; reflexivity). simpl. lia.
Qed.

(** C5 (as amended).  The partition key of a run is the date on the
    process's local clock ([datetime.now()], no time zone), formatted
    [YYYY-MM-DD]: in every successful run it is the [date] of the metadata
    and the date in the storage key.  It is the UTC date whenever the local
    clock and the UTC clock are on the same day, in particular when the
    local zone is UTC. *)
Theorem C5_partition_key_is_local_date m cfg w event context st recent_tracks st' :
  successful_run m cfg w event context st recent_tracks st' ->
  let date := strftime_Ymd (civil_from_days ((time_time w + utcoffset w) / 86400)) in
  exists b n,
    RAW_S3_BUCKET_NAME cfg = Some b /\
    fst (lambda_handler m cfg w event context st)
    = Returned
        (PDict [("statusCode", PInt 200);
                ("body", PStr ("Data saved to s3://" ++ b ++ "/" ++ key m date));
                ("metadata", PDict [("date", PStr date);
                                    ("tracks_count", PInt n);
                                    ("bucket", PStr b)])]) /\
    get_object st' b (key m date) = Some (stored recent_tracks) /\
    ((time_time w + utcoffset w) / 86400 = time_time w / 86400 ->
     date = strftime_Ymd (datetime_utcnow w)) /\
    (utcoffset w = 0 -> date = strftime_Ymd (datetime_utcnow w)).
Proof.
  intros Hrun date.
  destruct (successful_run_inv _ _ _ _ _ _ _ _ Hrun)
    as (b & n & Hb & _ & _ & Hres & _ & Hobj).
  exists b, n. split; [done|]. split.
  - rewrite Hres. unfold saved, metadata. by rewrite Hb.
  - split; [unfold get_object; rewrite Hobj; apply lookup_insert_eq|].
    unfold date, datetime_utcnow. split.
    + by intros ->.
    + intros ->. by rewrite Z.add_0_r.
Qed.

Lemma C5_witness :
  exists b n,
    RAW_S3_BUCKET_NAME cfg0 = Some b /\
    fst (lambda_handler lambda_function cfg0 w_west PNone PNone st0)
    = Returned
        (PDict [("statusCode", PInt 200);
                ("body", PStr ("Data saved to s3://" ++ b ++ "/"
                               ++ key lambda_function
                                    (strftime_Ymd
                                       (civil_from_days
                                          ((time_time w_west + utcoffset w_west) / 86400)))));
                ("metadata",
                 PDict [("date",
                         PStr (strftime_Ymd
                                 (civil_from_days
                                    ((time_time w_west + utcoffset w_west) / 86400))));
                        ("tracks_count", PInt n);
                        ("bucket", PStr b)])]) /\
    get_object (snd (lambda_handler lambda_function cfg0 w_west PNone PNone st0)) b
      (key lambda_function
         (strftime_Ymd (civil_from_days ((time_time w_west + utcoffset w_west) / 86400))))
    = Some (stored payload0) /\
    ((time_time w_west + utcoffset w_west) / 86400 = time_time w_west / 86400 ->
     strftime_Ymd (civil_from_days ((time_time w_west + utcoffset w_west) / 86400))
     = strftime_Ymd (datetime_utcnow w_west)) /\
    (utcoffset w_west = 0 ->
     strftime_Ymd (civil_from_days ((time_time w_west + utcoffset w_west) / 86400))
     = strftime_Ymd (datetime_utcnow w_west)).
Proof.
  apply (C5_partition_key_is_local_date lambda_function cfg0 w_west PNone PNone st0).
  sample_run lambda_function w_west st0 (PStr "BQDtoken").
Defined.

(** The claim as stated fails on a clock that is not on UTC: at
    2024-01-16 00:30:00 UTC, five hours behind, the run is successful, the
    UTC date is 2024-01-16, and the partition key (metadata and storage
    key) is 2024-01-15. *)
Lemma C5_counterexample :
  strftime_Ymd (datetime_utcnow w_west) = "2024-01-16" /\
  fst (lambda_handler lambda_function cfg0 w_west PNone PNone st0)
  = Returned (setitem (saved lambda_function "raw-bucket" "2024-01-15") "metadata"
                (metadata cfg0 "2024-01-15" 1)) /\
  get_object (snd (lambda_handler lambda_function cfg0 w_west PNone PNone st0))
    "raw-bucket" "2024-01-15/2024-01-15_recent_tracks.json"
  = Some (stored payload0) /\
  get_object (snd (lambda_handler lambda_function cfg0 w_west PNone PNone st0))
    "raw-bucket" "2024-01-16/2024-01-16_recent_tracks.json"
  = None.
Proof.
  repeat split; vm_compute; reflexivity.
Qed.

(** * Further properties of the four functions *)

(** ** [get_spotify_token] *)

(** X1.  Whatever the token endpoint does (answers with any status, sends a
    body that is or is not JSON, or the request raises), the token step
    sends exactly one POST, the one of [token_request], may print at most
    once after it, and does nothing else: no GET, no storage call, and the
    buckets and objects are as before. *)
Theorem X1_token_step_effects m cfg w st :
  exists prints,
    snd (get_spotify_token m cfg w st) = extend st (EvPost (token_request cfg) :: prints) /\
    forallb is_print prints = true /\
    (length prints <= 1)%nat /\
    objects (snd (get_spotify_token m cfg w st)) = objects st /\
    buckets (snd (get_spotify_token m cfg w st)) = buckets st.
Proof.
  destruct (requests_post w (token_request cfg)) as [resp|e] eqn:Hpost.
  - destruct (Z.eq_dec (status_code resp) 200) as [H200|Hne].
    + destruct (json resp) as [auth_data|e] eqn:Hjson.
      * rewrite (get_spotify_token_200 m cfg w st resp auth_data Hpost H200 Hjson).
        eexists; split; [reflexivity|]. destruct m; simpl; repeat split; auto.
      * exists []. unfold get_spotify_token. step.
        rewrite Hpost, H200. simpl. rewrite Hjson.
        destruct (is_RequestException e); simpl; repeat split; auto.
    + rewrite (get_spotify_token_non_200 m cfg w st resp Hpost Hne).
      eexists; split; [reflexivity|]. destruct m; simpl; repeat split; auto.
  - rewrite (get_spotify_token_raises m cfg w st e Hpost).
    exists []. simpl. repeat split; auto.
Qed.

(** X2.  The token step never lets a [RequestException] out: an exception
    it raises is of another class (a [KeyError] or [TypeError] of the
    subscript, or a foreign exception of the POST or of the decoding). *)
Theorem X2_token_step_never_raises_RequestException m cfg w st e st' :
  get_spotify_token m cfg w st = (Raised e, st') ->
  is_RequestException e = false.
Proof.
  destruct (requests_post w (token_request cfg)) as [resp|e0] eqn:Hpost.
  - destruct (Z.eq_dec (status_code resp) 200) as [H200|Hne].
    + destruct (json resp) as [auth_data|e0] eqn:Hjson.
      * rewrite (get_spotify_token_200 m cfg w st resp auth_data Hpost H200 Hjson).
        destruct auth_data as [| | | | | |d]; simpl; try (by intros [= <- _]).
        destruct (dict_lookup "access_token" d); simpl; [discriminate|].
        by intros [= <- _].
      * unfold get_spotify_token. step. rewrite Hpost, H200. simpl. rewrite Hjson.
        destruct (is_RequestException e0) eqn:He0; [discriminate|].
        by intros [= <- _].
    + by rewrite (get_spotify_token_non_200 m cfg w st resp Hpost Hne).
  - rewrite (get_spotify_token_raises m cfg w st e0 Hpost).
    destruct (is_RequestException e0) eqn:He0; [discriminate|].
    by intros [= <- _].
Qed.

Lemma X2_witness :
  is_RequestException (mk_exn KeyError "'access_token'") = false.
Proof.
  apply (X2_token_step_never_raises_RequestException lambda_function cfg0 w_no_token st0
           (mk_exn KeyError "'access_token'")
           (snd (get_spotify_token lambda_function cfg0 w_no_token st0))).
  run_eq.
Defined.

(** X3.  A 200 token response whose body cannot be decoded: when the
    decoding raises a [RequestException] (the [JSONDecodeError] of
    requests), the token step returns the 500 failure with
    ['Request failed: ' + str(e)], and the handler returns that dict; when it
    raises anything else, the exception leaves the token step and the
    handler's catch-all answers 500.  Either way nothing is printed by the
    token step, nothing is fetched and nothing is stored. *)
Theorem X3_token_body_not_json m cfg w event context st resp e :
  requests_post w (token_request cfg) = Returned resp ->
  status_code resp = 200 ->
  json resp = Raised e ->
  get_spotify_token m cfg w st
  = (if is_RequestException e
     then Returned (PDict [("statusCode", PInt 500);
                           ("body", PStr ("Request failed: " ++ exc_str e))])
     else Raised e,
     extend st [EvPost (token_request cfg)]) /\
  lambda_handler m cfg w event context st
  = (Returned
       (PDict [("statusCode", PInt 500);
               ("body",
                PStr (if is_RequestException e
                      then "Request failed: " ++ exc_str e
                      else json_dumps None (PDict [("error", PStr (exc_str e))])))]),
     extend st [EvPost (token_request cfg)]).
Proof.
  intros Hpost H200 Hjson.
  assert (Htok : get_spotify_token m cfg w st
                 = (if is_RequestException e
                    then Returned (failure 500 ("Request failed: " ++ exc_str e))
                    else Raised e,
                    extend st [EvPost (token_request cfg)])).
  { unfold get_spotify_token. step. rewrite Hpost, H200. simpl. rewrite Hjson.
    by destruct (is_RequestException e). }
  split; [exact Htok|].
  destruct (is_RequestException e).
  - exact (lambda_handler_token_dict m cfg w event context st _ _ Htok).
  - exact (lambda_handler_token_raised m cfg w event context st _ _ Htok).
Qed.

Lemma X3_witness :
  get_spotify_token lambda_function cfg0 w_bad_json st0
  = (if is_RequestException
          (mk_exn JSONDecodeError "Expecting value: line 1 column 1 (char 0)")
     then Returned (PDict [("statusCode", PInt 500);
                           ("body", PStr ("Request failed: "
                                          ++ "Expecting value: line 1 column 1 (char 0)"))])
     else Raised (mk_exn JSONDecodeError "Expecting value: line 1 column 1 (char 0)"),
     extend st0 [EvPost (token_request cfg0)]) /\
  lambda_handler lambda_function cfg0 w_bad_json PNone PNone st0
  = (Returned
       (PDict [("statusCode", PInt 500);
               ("body",
                PStr (if is_RequestException
                           (mk_exn JSONDecodeError
                              "Expecting value: line 1 column 1 (char 0)")
                      then "Request failed: "
                           ++ "Expecting value: line 1 column 1 (char 0)"
                      else json_dumps None
                             (PDict [("error",
                                      PStr "Expecting value: line 1 column 1 (char 0)")])))]),
     extend st0 [EvPost (token_request cfg0)]).
Proof.
  apply (X3_token_body_not_json lambda_function cfg0 w_bad_json PNone PNone st0
           {| status_code := 200; reason := "OK"; url := token_url;
              text := "<html>Bad gateway</html>";
              json := Raised (mk_exn JSONDecodeError
                                "Expecting value: line 1 column 1 (char 0)") |}
           (mk_exn JSONDecodeError "Expecting value: line 1 column 1 (char 0)"));
    reflexivity.
Defined.

(** ** [get_recent_tracks] *)

(** X4.  When the activity endpoint answers with a 2xx status (indeed any
    status that is not 4xx or 5xx) and a body that decodes, the fetch step
    returns the decoded body as it is, after one GET and nothing else. *)
Theorem X4_fetch_returns_body_unmodified w access_token st resp recent_tracks :
  requests_get w (tracks_request access_token) = Returned resp ->
  ~ 400 <= status_code resp < 600 ->
  json resp = Returned recent_tracks ->
  get_recent_tracks w access_token st
  = (Returned recent_tracks,
     {| buckets := buckets st; objects := objects st;
        trace := trace st ++ [EvGet (tracks_request access_token)] |}).
Proof.
  intros Hget Hst Hjson.
  exact (get_recent_tracks_other w access_token st resp recent_tracks Hget Hst Hjson).
Qed.

Lemma X4_witness :
  get_recent_tracks w_ok (PStr "BQDtoken") st0
  = (Returned payload0,
     {| buckets := buckets st0; objects := objects st0;
        trace := trace st0 ++ [EvGet (tracks_request (PStr "BQDtoken"))] |}).
Proof.
  apply (X4_fetch_returns_body_unmodified w_ok (PStr "BQDtoken") st0
           (tracks_response 200 "OK" payload0) payload0).
  - reflexivity.
  - simpl. lia.
  - reflexivity.
Defined.

(** X5.  When the GET itself fails with a [RequestException] (timeout,
    connection error), the fetch step raises a plain [Exception] with the
    text ['Failed to fetch recent tracks: ' + str(e)]; in a run where that
    happens the handler answers 500 with that text as the error, and the
    stored objects are as before. *)
Theorem X5_fetch_network_failure m cfg w event context st tok st1 e :
  get_spotify_token m cfg w st = (Returned tok, st1) ->
  isinstance_dict tok = false ->
  requests_get w (tracks_request tok) = Raised e ->
  is_RequestException e = true ->
  get_recent_tracks w tok st1
  = (Raised (mk_exn Exception_ ("Failed to fetch recent tracks: " ++ exc_str e)),
     extend st1 [EvGet (tracks_request tok)]) /\
  fst (lambda_handler m cfg w event context st)
  = Returned
      (PDict [("statusCode", PInt 500);
              ("body",
               PStr (json_dumps None
                       (PDict [("error",
                                PStr ("Failed to fetch recent tracks: " ++ exc_str e))])))]) /\
  objects (snd (lambda_handler m cfg w event context st)) = objects st.
Proof.
  intros Htok Hd Hget He.
  assert (Hfetch : get_recent_tracks w tok st1
                   = (Raised (mk_exn Exception_
                                ("Failed to fetch recent tracks: " ++ exc_str e)),
                      extend st1 [EvGet (tracks_request tok)])).
  { unfold get_recent_tracks. step. by rewrite Hget, He. }
  split; [exact Hfetch|].
  rewrite (lambda_handler_fetch_raised m cfg w event context st _ _ _ _ Htok Hd Hfetch).
  split; [reflexivity|]. simpl.
  destruct (get_spotify_token_state m cfg w st) as (evs & Hst1 & _).
  rewrite Htok in Hst1. simpl in Hst1. by subst st1.
Qed.

Lemma X5_witness :
  get_recent_tracks w_tracks_down (PStr "BQDtoken")
    (snd (get_spotify_token lambda_function cfg0 w_tracks_down st0))
  = (Raised (mk_exn Exception_
               ("Failed to fetch recent tracks: "
                ++ exc_str (mk_exn ConnectionError_
                              "Failed to establish a new connection"))),
     extend (snd (get_spotify_token lambda_function cfg0 w_tracks_down st0))
       [EvGet (tracks_request (PStr "BQDtoken"))]) /\
  fst (lambda_handler lambda_function cfg0 w_tracks_down PNone PNone st0)
  = Returned
      (PDict [("statusCode", PInt 500);
              ("body",
               PStr (json_dumps None
                       (PDict [("error",
                                PStr ("Failed to fetch recent tracks: "
                                      ++ exc_str
                                           (mk_exn ConnectionError_
                                              "Failed to establish a new connection")))])))]) /\
  objects (snd (lambda_handler lambda_function cfg0 w_tracks_down PNone PNone st0))
  = objects st0.
Proof.
  apply (X5_fetch_network_failure lambda_function cfg0 w_tracks_down PNone PNone st0
           (PStr "BQDtoken") (snd (get_spotify_token lambda_function cfg0 w_tracks_down st0))
           (mk_exn ConnectionError_ "Failed to establish a new connection")).
  - run_eq.
  - reflexivity.
  - reflexivity.
  - reflexivity.
Defined.

(** X6.  Whether it returns or raises, the fetch step sends exactly one
    GET, to the recently-played URL, carrying the token it was given,
    [limit=50] and a timeout of 10 seconds, and changes nothing else; and an
    exception it raises is never a [RequestException]: those are all
    raised again as plain [Exception]. *)
Theorem X6_fetch_step_effects w access_token st :
  snd (get_recent_tracks w access_token st)
  = {| buckets := buckets st; objects := objects st;
       trace := trace st
                ++ [EvGet {| get_url := "https://api.spotify.com/v1/me/player/recently-played";
                             get_bearer := access_token;
                             get_params := [("limit", 50)];
                             get_timeout := 10 |}] |} /\
  forall e, fst (get_recent_tracks w access_token st) = Raised e ->
            is_RequestException e = false.
Proof.
  split; [exact (get_recent_tracks_state w access_token st)|].
  unfold get_recent_tracks. step.
  destruct (requests_get w (tracks_request access_token)) as [resp|e0]; simpl.
  - unfold raise_for_status.
    destruct (String.eqb (http_error_msg resp) ""); simpl.
    + destruct (json resp) as [v|e0]; simpl; [discriminate|].
      destruct (is_RequestException e0) eqn:He0; simpl; intros e [= <-]; done.
    + by intros e [= <-].
  - destruct (is_RequestException e0) eqn:He0; simpl; intros e [= <-]; done.
Qed.

(** ** [save_to_s3] *)

(** An exception of the store step is the wrapped one, and the store is
    untouched. *)
Lemma save_to_s3_raised_wrapped m cfg w data date st e st' :
  save_to_s3 m cfg w data date st = (Raised e, st') ->
  exc_type e = Exception_ /\
  (exists cause, exc_str e = "Failed to save to S3: " ++ exc_str cause) /\
  objects st' = objects st /\
  buckets st' = buckets st.
Proof.
  intros Hsave.
  destruct (save_to_s3_raised _ _ _ _ _ _ _ _ Hsave) as [Hobj Hbuck].
  assert (He : exists cause,
             e = mk_exn Exception_ ("Failed to save to S3: " ++ exc_str cause)).
  { revert Hsave. unfold save_to_s3, boto3_client, put_object. step.
    destruct (boto3_client_fault w); [intros [= <- _]; by eexists (mk_exn Exception_ _)|]. simpl.
    destruct (RAW_S3_BUCKET_NAME cfg) as [b|]; [|intros [= <- _]; by eexists (mk_exn Exception_ _)]. simpl.
    destruct (String.eqb b ""); [intros [= <- _]; by eexists (mk_exn Exception_ _)|].
    destruct (put_object_fault w); [intros [= <- _]; by eexists (mk_exn Exception_ _)|]. simpl.
    destruct (decide (b ∈ buckets st)); simpl; [discriminate|].
    intros [= <- _]. by eexists (mk_exn Exception_ _). }
  destruct He as (cause & ->). repeat split; try done. by exists cause.
Qed.

(** X7.  Whatever goes wrong in the store step, the exception that leaves
    it is a plain [Exception] whose text starts with
    ['Failed to save to S3: '], and the buckets and objects are exactly as
    before.  When the cause is an exception of [boto3.client], the refusal
    of an unset or empty bucket name by botocore, or an exception of the
    service call, the text is that prefix followed by the text of that very
    exception; when nothing else fails and the bucket does not exist, it is
    the prefix followed by the service's NoSuchBucket text. *)
Theorem X7_save_failure_is_wrapped m cfg w data date st e st' :
  save_to_s3 m cfg w data date st = (Raised e, st') ->
  exc_type e = Exception_ /\
  String.prefix "Failed to save to S3: " (exc_str e) = true /\
  objects st' = objects st /\
  buckets st' = buckets st /\
  (forall cause,
      boto3_client_fault w = Some cause ->
      exc_str e = "Failed to save to S3: " ++ exc_str cause) /\
  (boto3_client_fault w = None ->
   RAW_S3_BUCKET_NAME cfg = None \/ RAW_S3_BUCKET_NAME cfg = Some "" ->
   exc_str e
   = "Failed to save to S3: "
     ++ exc_str (bucket_validation w (RAW_S3_BUCKET_NAME cfg))) /\
  (forall b cause,
      boto3_client_fault w = None -> RAW_S3_BUCKET_NAME cfg = Some b -> b <> "" ->
      put_object_fault w = Some cause ->
      exc_str e = "Failed to save to S3: " ++ exc_str cause) /\
  (forall b,
      boto3_client_fault w = None -> RAW_S3_BUCKET_NAME cfg = Some b -> b <> "" ->
      put_object_fault w = None ->
      (b ∉ buckets st) /\
      exc_str e
      = "Failed to save to S3: "
        ++ "An error occurred (NoSuchBucket) when calling the PutObject operation: The specified bucket does not exist").
Proof.
  intros Hsave.
  destruct (save_to_s3_raised _ _ _ _ _ _ _ _ Hsave) as [Hobj Hbuck].
  destruct (save_to_s3_raised_wrapped _ _ _ _ _ _ _ _ Hsave) as (Htype & (c & Hc) & _).
  split; [exact Htype|]. split; [rewrite Hc; apply (proj2 (String.prefix_correct _ _)); simpl;
          by destruct (exc_str c)|].
  split; [exact Hobj|]. split; [exact Hbuck|].
  revert Hsave. unfold save_to_s3, boto3_client, put_object. step.
  destruct (boto3_client_fault w) as [c0|].
  { intros [= <- _]. repeat split; intros; by simplify_eq. }
  simpl. destruct (RAW_S3_BUCKET_NAME cfg) as [b|];
    [|intros [= <- _]; repeat split; intros; by simplify_eq].
  simpl. destruct (String.eqb_spec b "") as [->|Hne].
  { intros [= <- _]. repeat split; intros; by simplify_eq. }
  destruct (put_object_fault w) as [c1|].
  { intros [= <- _]. repeat split; intros; try (by simplify_eq).
    by match goal with H : _ \/ _ |- _ => destruct H end; simplify_eq. }
  simpl. destruct (decide (b ∈ buckets st)) as [Hin|Hin]; simpl; [discriminate|].
  intros [= <- _]. repeat split; intros; try (by simplify_eq).
  by match goal with H : _ \/ _ |- _ => destruct H end; simplify_eq.
Qed.

Lemma X7_witness :
  exc_type
    (mk_exn Exception_
       ("Failed to save to S3: "
        ++ "An error occurred (AccessDenied) when calling the PutObject operation: Access Denied"))
  = Exception_ /\
  String.prefix "Failed to save to S3: "
    (exc_str
       (mk_exn Exception_
          ("Failed to save to S3: "
           ++ "An error occurred (AccessDenied) when calling the PutObject operation: Access Denied")))
  = true /\
  objects (snd (save_to_s3 lambda_function cfg0 w_access_denied payload0 "2024-01-15" st0))
  = objects st0 /\
  buckets (snd (save_to_s3 lambda_function cfg0 w_access_denied payload0 "2024-01-15" st0))
  = buckets st0 /\
  (forall cause,
      boto3_client_fault w_access_denied = Some cause ->
      exc_str
        (mk_exn Exception_
           ("Failed to save to S3: "
            ++ "An error occurred (AccessDenied) when calling the PutObject operation: Access Denied"))
      = "Failed to save to S3: " ++ exc_str cause) /\
  (boto3_client_fault w_access_denied = None ->
   RAW_S3_BUCKET_NAME cfg0 = None \/ RAW_S3_BUCKET_NAME cfg0 = Some "" ->
   exc_str
     (mk_exn Exception_
        ("Failed to save to S3: "
         ++ "An error occurred (AccessDenied) when calling the PutObject operation: Access Denied"))
   = "Failed to save to S3: "
     ++ exc_str (bucket_validation w_access_denied (RAW_S3_BUCKET_NAME cfg0))) /\
  (forall b cause,
      boto3_client_fault w_access_denied = None -> RAW_S3_BUCKET_NAME cfg0 = Some b ->
      b <> "" ->
      put_object_fault w_access_denied = Some cause ->
      exc_str
        (mk_exn Exception_
           ("Failed to save to S3: "
            ++ "An error occurred (AccessDenied) when calling the PutObject operation: Access Denied"))
      = "Failed to save to S3: " ++ exc_str cause) /\
  (forall b,
      boto3_client_fault w_access_denied = None -> RAW_S3_BUCKET_NAME cfg0 = Some b ->
      b <> "" ->
      put_object_fault w_access_denied = None ->
      (b ∉ buckets st0) /\
      exc_str
        (mk_exn Exception_
           ("Failed to save to S3: "
            ++ "An error occurred (AccessDenied) when calling the PutObject operation: Access Denied"))
      = "Failed to save to S3: "
        ++ "An error occurred (NoSuchBucket) when calling the PutObject operation: The specified bucket does not exist").
Proof.
  apply (X7_save_failure_is_wrapped lambda_function cfg0 w_access_denied payload0
           "2024-01-15" st0).
  run_eq.
Defined.

(** The store step returns exactly when a client could be created, the
    bucket name is set and not empty, the service reports no fault and the
    bucket exists. *)
Lemma save_to_s3_returns_iff m cfg w data date st :
  (exists result st', save_to_s3 m cfg w data date st = (Returned result, st')) <->
  (boto3_client_fault w = None /\ put_object_fault w = None /\
   exists b, RAW_S3_BUCKET_NAME cfg = Some b /\ b <> "" /\ b ∈ buckets st).
Proof.
  split.
  - intros (result & st' & Hsave). revert Hsave.
    unfold save_to_s3, boto3_client, put_object. step.
    destruct (boto3_client_fault w); [discriminate|]. simpl.
    destruct (RAW_S3_BUCKET_NAME cfg) as [b|]; [|discriminate]. simpl.
    destruct (String.eqb_spec b ""); [discriminate|].
    destruct (put_object_fault w); [discriminate|]. simpl.
    destruct (decide (b ∈ buckets st)); simpl; [|discriminate].
    intros _. repeat split; try done. by exists b.
  - intros (Hc & Hp & b & Hb & Hne & Hin).
    do 2 eexists. exact (save_to_s3_ok m cfg w data date st b Hc Hp Hb Hne Hin).
Qed.

(** X8.  With the bucket name unset or empty the store step always raises,
    whatever the payload, the date and the service do, and leaves the
    objects as they were; the handler then never stores anything. *)
Theorem X8_save_without_bucket_name m cfg w event context data date st :
  RAW_S3_BUCKET_NAME cfg = None \/ RAW_S3_BUCKET_NAME cfg = Some "" ->
  (exists e st',
      save_to_s3 m cfg w data date st = (Raised e, st') /\
      exc_type e = Exception_ /\ objects st' = objects st) /\
  objects (snd (lambda_handler m cfg w event context st)) = objects st.
Proof.
  intros Hname.
  assert (Hnever : forall data date st r st',
             save_to_s3 m cfg w data date st <> (Returned r, st')).
  { intros data' date' s r s' Hsave.
    destruct (save_to_s3_returned _ _ _ _ _ _ _ _ Hsave) as (b & Hb & Hin & _ & _).
    destruct (proj1 (save_to_s3_returns_iff m cfg w data' date' s)
                (ex_intro _ r (ex_intro _ s' Hsave))) as (_ & _ & b' & Hb' & Hne & _).
    destruct Hname as [Hn|Hn]; rewrite Hn in Hb'; [discriminate|].
    by injection Hb' as <-. }
  split.
  - destruct (save_to_s3 m cfg w data date st) as [[r|e] st'] eqn:Hsave.
    + by destruct (Hnever _ _ _ _ _ Hsave).
    + exists e, st'. split; [done|].
      destruct (save_to_s3_raised_wrapped _ _ _ _ _ _ _ _ Hsave) as (Ht & _).
      destruct (save_to_s3_raised _ _ _ _ _ _ _ _ Hsave) as [Hobj _]. by split.
  - destruct (get_spotify_token_state m cfg w st) as (evs & Hst1 & _).
    destruct (get_spotify_token m cfg w st) as [[tok|e] st1] eqn:Htok; simpl in Hst1.
    + destruct (isinstance_dict tok) eqn:Hd.
      * destruct tok as [| | | | | |d]; try discriminate.
        rewrite (lambda_handler_token_dict m cfg w event context st _ _ Htok).
        by subst st1.
      * pose proof (get_recent_tracks_state w tok st1) as Hst2.
        destruct (get_recent_tracks w tok st1) as [[recent_tracks|e] st2] eqn:Hfetch;
          simpl in Hst2.
        -- destruct (save_to_s3 m cfg w recent_tracks (today_date w) st2)
             as [[r|e] st3] eqn:Hsave.
           ++ by destruct (Hnever _ _ _ _ _ Hsave).
           ++ rewrite (lambda_handler_save_raised _ _ _ _ _ _ _ _ _ _ _ _
                         Htok Hd Hfetch Hsave).
              destruct (save_to_s3_raised _ _ _ _ _ _ _ _ Hsave) as [Hobj _].
              simpl. rewrite Hobj. by subst st2 st1.
        -- rewrite (lambda_handler_fetch_raised _ _ _ _ _ _ _ _ _ _ Htok Hd Hfetch).
           simpl. by subst st2 st1.
    + rewrite (lambda_handler_token_raised _ _ _ _ _ _ _ _ Htok). by subst st1.
Qed.

Lemma X8_witness :
  (exists e st',
      save_to_s3 lambda_function cfg_empty_bucket w_ok payload0 "2025-10-27" st0
      = (Raised e, st') /\
      exc_type e = Exception_ /\ objects st' = objects st0) /\
  objects (snd (lambda_handler lambda_function cfg_empty_bucket w_ok PNone PNone st0))
  = objects st0.
Proof.
  apply (X8_save_without_bucket_name lambda_function cfg_empty_bucket w_ok PNone PNone
           payload0 "2025-10-27" st0).
  right. reflexivity.
Defined.

(** Strings: lengths add up, and equal-length prefixes of equal strings are
    equal. *)
Lemma string_length_app (s t : string) :
  String.length (s ++ t) = (String.length s + String.length t)%nat.
Proof. induction s as [|c s IH]; simpl; [done|]. by rewrite IH. Qed.

Lemma string_app_inv_head (s1 s2 t1 t2 : string) :
  String.length s1 = String.length s2 -> s1 ++ t1 = s2 ++ t2 -> s1 = s2.
Proof.
  revert s2. induction s1 as [|c s1 IH]; intros [|c' s2]; simpl; try done.
  intros [= Hlen] [= -> Heq]. f_equal. by apply IH.
Qed.

(** The key determines the date, in both modules. *)
Lemma key_inj m d1 d2 : key m d1 = key m d2 -> d1 = d2.
Proof.
  intros Hkey.
  assert (Hlen : String.length (key m d1) = String.length (key m d2)) by by rewrite Hkey.
  destruct m; simpl in *; rewrite ?string_length_app in Hlen; simpl in Hlen;
    rewrite ?string_length_app in Hlen; simpl in Hlen;
    (apply (string_app_inv_head _ _ _ _) in Hkey; [done|lia]).
Qed.

(** X9.  The store step touches one key only: whether it returns or
    raises, every object under another bucket or another key reads back as
    before, and the set of buckets is unchanged. *)
Theorem X9_save_touches_one_key m cfg w data date st bucket' key' :
  (RAW_S3_BUCKET_NAME cfg, key m date) <> (Some bucket', key') ->
  get_object (snd (save_to_s3 m cfg w data date st)) bucket' key'
  = get_object st bucket' key' /\
  buckets (snd (save_to_s3 m cfg w data date st)) = buckets st.
Proof.
  intros Hne.
  destruct (save_to_s3 m cfg w data date st) as [[r|e] st'] eqn:Hsave; simpl.
  - destruct (save_to_s3_returned _ _ _ _ _ _ _ _ Hsave) as (b & Hb & _ & _ & ->).
    unfold get_object. simpl. split; [|done].
    apply lookup_insert_ne. rewrite Hb in Hne. congruence.
  - destruct (save_to_s3_raised _ _ _ _ _ _ _ _ Hsave) as [Hobj Hbuck].
    unfold get_object. by rewrite Hobj.
Qed.

Lemma X9_witness :
  get_object
    (snd (save_to_s3 lambda_function cfg0 w_next_day payload1 "2024-01-16"
            (snd (save_to_s3 lambda_function cfg0 w_ok payload0 "2024-01-15" st0))))
    "raw-bucket" "2024-01-15/2024-01-15_recent_tracks.json"
  = get_object (snd (save_to_s3 lambda_function cfg0 w_ok payload0 "2024-01-15" st0))
      "raw-bucket" "2024-01-15/2024-01-15_recent_tracks.json" /\
  buckets
    (snd (save_to_s3 lambda_function cfg0 w_next_day payload1 "2024-01-16"
            (snd (save_to_s3 lambda_function cfg0 w_ok payload0 "2024-01-15" st0))))
  = buckets (snd (save_to_s3 lambda_function cfg0 w_ok payload0 "2024-01-15" st0)).
Proof.
  apply (X9_save_touches_one_key lambda_function cfg0 w_next_day payload1 "2024-01-16"
           (snd (save_to_s3 lambda_function cfg0 w_ok payload0 "2024-01-15" st0))).
  simpl. intros H. discriminate H.
Defined.

(** X10.  Two successful runs whose handlers compute different dates write
    under different keys, in both modules: after the second run each
    payload reads back under its own date's key. *)
Theorem X10_runs_on_different_dates_keep_both
    m cfg w1 w2 event1 context1 event2 context2 st payload st1 payload' st2 :
  successful_run m cfg w1 event1 context1 st payload st1 ->
  successful_run m cfg w2 event2 context2 st1 payload' st2 ->
  today_date w1 <> today_date w2 ->
  exists b,
    RAW_S3_BUCKET_NAME cfg = Some b /\
    key m (today_date w1) <> key m (today_date w2) /\
    get_object st2 b (key m (today_date w1)) = Some (stored payload) /\
    get_object st2 b (key m (today_date w2)) = Some (stored payload').
Proof.
  intros Hrun1 Hrun2 Hdate.
  destruct (successful_run_inv _ _ _ _ _ _ _ _ Hrun1) as (b & n & Hb & _ & _ & _ & _ & Hobj1).
  destruct (successful_run_inv _ _ _ _ _ _ _ _ Hrun2) as (b' & n' & Hb' & _ & _ & _ & _ & Hobj2).
  rewrite Hb in Hb'. injection Hb' as <-.
  assert (Hkey : key m (today_date w1) <> key m (today_date w2))
    by (intros Hk; by apply Hdate, (key_inj m)).
  exists b. unfold get_object. rewrite Hobj2, Hobj1.
  split; [done|]. split; [done|]. split.
  - rewrite lookup_insert_ne by congruence. apply lookup_insert_eq.
  - apply lookup_insert_eq.
Qed.

Lemma X10_witness :
  exists b,
    RAW_S3_BUCKET_NAME cfg0 = Some b /\
    key lambda_function (today_date w_ok) <> key lambda_function (today_date w_next_day) /\
    get_object
      (snd (lambda_handler lambda_function cfg0 w_next_day PNone PNone
              (snd (lambda_handler lambda_function cfg0 w_ok PNone PNone st0)))) b
      (key lambda_function (today_date w_ok))
    = Some (stored payload0) /\
    get_object
      (snd (lambda_handler lambda_function cfg0 w_next_day PNone PNone
              (snd (lambda_handler lambda_function cfg0 w_ok PNone PNone st0)))) b
      (key lambda_function (today_date w_next_day))
    = Some (stored payload1).
Proof.
  apply (X10_runs_on_different_dates_keep_both lambda_function cfg0 w_ok w_next_day
           PNone PNone PNone PNone st0 payload0
           (snd (lambda_handler lambda_function cfg0 w_ok PNone PNone st0)) payload1).
  - sample_run lambda_function w_ok st0 (PStr "BQDtoken").
  - sample_run lambda_function w_next_day
      (snd (lambda_handler lambda_function cfg0 w_ok PNone PNone st0)) (PStr "BQDtoken").
  - vm_compute. intros H. discriminate H.
Defined.

(** ** [lambda_handler] *)

(** A value that is not a dict comes out of the token step on one path
    only: a 200 response whose body is a JSON object with that value as
    [access_token]. *)
Lemma get_spotify_token_token_inv m cfg w st tok st1 :
  get_spotify_token m cfg w st = (Returned tok, st1) ->
  isinstance_dict tok = false ->
  exists resp auth_data,
    requests_post w (token_request cfg) = Returned resp /\
    status_code resp = 200 /\
    json resp = Returned (PDict auth_data) /\
    dict_lookup "access_token" auth_data = Some tok /\
    st1 = extend st (EvPost (token_request cfg)
                     :: diagnostic_events m (PStr "Token Generated")).
Proof.
  destruct (requests_post w (token_request cfg)) as [resp|e] eqn:Hpost.
  - destruct (Z.eq_dec (status_code resp) 200) as [H200|Hne].
    + destruct (json resp) as [auth_data|e] eqn:Hjson.
      * rewrite (get_spotify_token_200 m cfg w st resp auth_data Hpost H200 Hjson).
        destruct auth_data as [| | | | | |auth_data]; try discriminate. simpl.
        destruct (dict_lookup "access_token" auth_data) as [v|] eqn:Hv; [|discriminate].
        simpl. intros [= -> <-] _. by exists resp, auth_data.
      * unfold get_spotify_token. step. rewrite Hpost, H200. simpl. rewrite Hjson.
        destruct (is_RequestException e); [|discriminate].
        by intros [= <- _].
    + rewrite (get_spotify_token_non_200 m cfg w st resp Hpost Hne).
      by intros [= <- _].
  - rewrite (get_spotify_token_raises m cfg w st e Hpost).
    destruct (is_RequestException e); [|discriminate].
    by intros [= <- _].
Qed.

(** A dict that comes out of the token step and is not the [access_token]
    of the response never has [statusCode] 200. *)
Lemma get_spotify_token_dict_status m cfg w st d st1 :
  get_spotify_token m cfg w st = (Returned (PDict d), st1) ->
  dict_lookup "statusCode" d <> Some (PInt 200) \/
  (exists resp auth_data,
      requests_post w (token_request cfg) = Returned resp /\
      status_code resp = 200 /\
      json resp = Returned (PDict auth_data) /\
      dict_lookup "access_token" auth_data = Some (PDict d)).
Proof.
  destruct (requests_post w (token_request cfg)) as [resp|e] eqn:Hpost.
  - destruct (Z.eq_dec (status_code resp) 200) as [H200|Hne].
    + destruct (json resp) as [auth_data|e] eqn:Hjson.
      * intros Htok. right.
        rewrite (get_spotify_token_200 m cfg w st resp auth_data Hpost H200 Hjson) in Htok.
        destruct auth_data as [| | | | | |auth_data]; try discriminate. simpl in Htok.
        destruct (dict_lookup "access_token" auth_data) as [v|] eqn:Hv; [|discriminate].
        simpl in Htok. injection Htok as -> _. by exists resp, auth_data.
      * unfold get_spotify_token. step. rewrite Hpost, H200. simpl. rewrite Hjson.
        destruct (is_RequestException e); [|discriminate].
        intros [= <- _]. by left.
    + rewrite (get_spotify_token_non_200 m cfg w st resp Hpost Hne).
      intros [= <- _]. left. simpl. congruence.
  - rewrite (get_spotify_token_raises m cfg w st e Hpost).
    destruct (is_RequestException e); [|discriminate].
    intros [= <- _]. by left.
Qed.

(** X11.  In a successful run the payload is a JSON object, and the
    [tracks_count] of the metadata is the number of elements of its [items]
    array, or 0 when it has no [items] member; the metadata also carries the
    date and the bucket name, and the result keeps the status and the body
    of the store step. *)
Theorem X11_tracks_count m cfg w event context st recent_tracks st' :
  successful_run m cfg w event context st recent_tracks st' ->
  exists d b n,
    recent_tracks = PDict d /\
    RAW_S3_BUCKET_NAME cfg = Some b /\
    fst (lambda_handler m cfg w event context st)
    = Returned
        (PDict [("statusCode", PInt 200);
                ("body", PStr ("Data saved to s3://" ++ b ++ "/" ++ key m (today_date w)));
                ("metadata", PDict [("date", PStr (today_date w));
                                    ("tracks_count", PInt n);
                                    ("bucket", PStr b)])]) /\
    (dict_lookup "items" d = None -> n = 0) /\
    (forall l, dict_lookup "items" d = Some (PList l) -> n = Z.of_nat (length l)).
Proof.
  intros Hrun.
  destruct (successful_run_inv _ _ _ _ _ _ _ _ Hrun)
    as (b & n & Hb & _ & Hn & Hres & _ & _).
  destruct recent_tracks as [| | | | | |d]; try discriminate.
  exists d, b, n. split; [done|]. split; [done|]. split.
  - rewrite Hres. unfold saved, metadata. by rewrite Hb.
  - simpl in Hn. split.
    + intros Hnone. rewrite Hnone in Hn. congruence.
    + intros l Hl. rewrite Hl in Hn. congruence.
Qed.

Lemma X11_witness :
  exists d b n,
    payload0 = PDict d /\
    RAW_S3_BUCKET_NAME cfg0 = Some b /\
    fst (lambda_handler lambda_function cfg0 w_ok PNone PNone st0)
    = Returned
        (PDict [("statusCode", PInt 200);
                ("body", PStr ("Data saved to s3://" ++ b ++ "/"
                               ++ key lambda_function (today_date w_ok)));
                ("metadata", PDict [("date", PStr (today_date w_ok));
                                    ("tracks_count", PInt n);
                                    ("bucket", PStr b)])]) /\
    (dict_lookup "items" d = None -> n = 0) /\
    (forall l, dict_lookup "items" d = Some (PList l) -> n = Z.of_nat (length l)).
Proof.
  apply (X11_tracks_count lambda_function cfg0 w_ok PNone PNone st0 payload0
           (snd (lambda_handler lambda_function cfg0 w_ok PNone PNone st0))).
  sample_run lambda_function w_ok st0 (PStr "BQDtoken").
Defined.

(** X12.  The metadata is computed after the write.  When the fetched
    payload is not a JSON object (an array, say), the store step has already
    written it by the time [recent_tracks.get] raises [AttributeError]: the
    handler answers 500 and the payload is in the bucket nonetheless. *)
Theorem X12_payload_stored_before_metadata_fails
    m cfg w event context st tok st1 recent_tracks st2 result st3 :
  get_spotify_token m cfg w st = (Returned tok, st1) ->
  isinstance_dict tok = false ->
  get_recent_tracks w tok st1 = (Returned recent_tracks, st2) ->
  isinstance_dict recent_tracks = false ->
  save_to_s3 m cfg w recent_tracks (today_date w) st2 = (Returned result, st3) ->
  lambda_handler m cfg w event context st
  = (Returned
       (PDict [("statusCode", PInt 500);
               ("body",
                PStr (json_dumps None
                        (PDict [("error",
                                 PStr ("'" ++ type_name recent_tracks
                                       ++ "' object has no attribute 'get'"))])))]),
     st3) /\
  exists b,
    RAW_S3_BUCKET_NAME cfg = Some b /\
    get_object st3 b (key m (today_date w)) = Some (stored recent_tracks).
Proof.
  intros Htok Hd Hfetch Hpayload Hsave.
  rewrite (lambda_handler_saved _ _ _ _ _ _ _ _ _ _ _ _ Htok Hd Hfetch Hsave).
  destruct (save_to_s3_returned _ _ _ _ _ _ _ _ Hsave) as (b & Hb & _ & _ & ->).
  split.
  - by destruct recent_tracks.
  - exists b. split; [done|]. unfold get_object. simpl. apply lookup_insert_eq.
Qed.

Lemma X12_witness :
  lambda_handler lambda_function cfg0 w_tracks_list PNone PNone st0
  = (Returned
       (PDict [("statusCode", PInt 500);
               ("body",
                PStr (json_dumps None
                        (PDict [("error",
                                 PStr ("'" ++ type_name (PList [PInt 1; PInt 2])
                                       ++ "' object has no attribute 'get'"))])))]),
     snd (save_to_s3 lambda_function cfg0 w_tracks_list (PList [PInt 1; PInt 2])
            (today_date w_tracks_list)
            (snd (get_recent_tracks w_tracks_list (PStr "BQDtoken")
                    (snd (get_spotify_token lambda_function cfg0 w_tracks_list st0)))))) /\
  exists b,
    RAW_S3_BUCKET_NAME cfg0 = Some b /\
    get_object
      (snd (save_to_s3 lambda_function cfg0 w_tracks_list (PList [PInt 1; PInt 2])
              (today_date w_tracks_list)
              (snd (get_recent_tracks w_tracks_list (PStr "BQDtoken")
                      (snd (get_spotify_token lambda_function cfg0 w_tracks_list st0))))))
      b (key lambda_function (today_date w_tracks_list))
    = Some (stored (PList [PInt 1; PInt 2])).
Proof.
  apply (X12_payload_stored_before_metadata_fails lambda_function cfg0 w_tracks_list
           PNone PNone st0 (PStr "BQDtoken")
           (snd (get_spotify_token lambda_function cfg0 w_tracks_list st0))
           (PList [PInt 1; PInt 2])
           (snd (get_recent_tracks w_tracks_list (PStr "BQDtoken")
                   (snd (get_spotify_token lambda_function cfg0 w_tracks_list st0))))
           (saved lambda_function "raw-bucket" (today_date w_tracks_list))).
  - run_eq.
  - reflexivity.
  - run_eq.
  - reflexivity.
  - run_eq.
Defined.

(** X13.  A 200 answer means the payload is in the bucket.  Provided the
    [access_token] the endpoint sends is not itself a JSON object, whenever
    the handler's result has [statusCode] 200 the run was successful: a
    token was obtained, a payload fetched, and that payload's serialization
    reads back under today's key. *)
Theorem X13_status_200_means_stored m cfg w event context st d st' :
  (forall resp auth_data v,
      requests_post w (token_request cfg) = Returned resp ->
      status_code resp = 200 ->
      json resp = Returned (PDict auth_data) ->
      dict_lookup "access_token" auth_data = Some v ->
      isinstance_dict v = false) ->
  lambda_handler m cfg w event context st = (Returned (PDict d), st') ->
  dict_lookup "statusCode" d = Some (PInt 200) ->
  exists b recent_tracks,
    RAW_S3_BUCKET_NAME cfg = Some b /\
    successful_run m cfg w event context st recent_tracks st' /\
    get_object st' b (key m (today_date w)) = Some (stored recent_tracks).
Proof.
  intros Htoken Hrun H200.
  destruct (get_spotify_token m cfg w st) as [[tok|e] st1] eqn:Htok.
  - destruct (isinstance_dict tok) eqn:Hd.
    + destruct tok as [| | | | | |d0]; try discriminate.
      rewrite (lambda_handler_token_dict m cfg w event context st _ _ Htok) in Hrun.
      injection Hrun as -> ->.
      destruct (get_spotify_token_dict_status _ _ _ _ _ _ Htok)
        as [Hne|(resp & auth_data & Hpost & Hs & Hjson & Hv)]; [done|].
      by specialize (Htoken resp auth_data (PDict d) Hpost Hs Hjson Hv).
    + destruct (get_recent_tracks w tok st1) as [[recent_tracks|e] st2] eqn:Hfetch.
      * assert (Hsucc : successful_run m cfg w event context st recent_tracks st')
          by (by exists tok, st1, st2, d).
        destruct (successful_run_inv _ _ _ _ _ _ _ _ Hsucc)
          as (b & n & Hb & _ & _ & _ & _ & Hobj).
        exists b, recent_tracks. split; [done|]. split; [done|].
        unfold get_object. rewrite Hobj. apply lookup_insert_eq.
      * rewrite (lambda_handler_fetch_raised _ _ _ _ _ _ _ _ _ _ Htok Hd Hfetch) in Hrun.
        injection Hrun as <- _. discriminate.
  - rewrite (lambda_handler_token_raised _ _ _ _ _ _ _ _ Htok) in Hrun.
    injection Hrun as <- _. discriminate.
Qed.

Lemma X13_witness :
  exists b recent_tracks,
    RAW_S3_BUCKET_NAME cfg0 = Some b /\
    successful_run lambda_function cfg0 w_ok PNone PNone st0 recent_tracks
      (snd (lambda_handler lambda_function cfg0 w_ok PNone PNone st0)) /\
    get_object (snd (lambda_handler lambda_function cfg0 w_ok PNone PNone st0)) b
      (key lambda_function (today_date w_ok))
    = Some (stored recent_tracks).
Proof.
  apply (X13_status_200_means_stored lambda_function cfg0 w_ok PNone PNone st0
           [("statusCode", PInt 200);
            ("body", PStr "Data saved to s3://raw-bucket/2024-01-15/2024-01-15_recent_tracks.json");
            ("metadata", PDict [("date", PStr "2024-01-15");
                                ("tracks_count", PInt 1);
                                ("bucket", PStr "raw-bucket")])]).
  - intros resp auth_data v Hpost _ Hjson Hv.
    simpl in Hpost. injection Hpost as <-. simpl in Hjson. injection Hjson as <-.
    simpl in Hv. by injection Hv as <-.
  - run_eq.
  - reflexivity.
Defined.

(** X14.  The effects of a successful run, in order and each once: the
    POST to the token endpoint, the GET whose bearer token is the
    [access_token] of the token response, the creation of the S3 client and
    one [put_object] with the payload's serialization; in
    [lambda_function.py] a print follows the token and another the result.
    Nothing else happens. *)
Theorem X14_successful_run_trace m cfg w event context st recent_tracks st' :
  successful_run m cfg w event context st recent_tracks st' ->
  exists resp auth_data tok b result,
    requests_post w (token_request cfg) = Returned resp /\
    json resp = Returned (PDict auth_data) /\
    dict_lookup "access_token" auth_data = Some tok /\
    RAW_S3_BUCKET_NAME cfg = Some b /\
    fst (lambda_handler m cfg w event context st) = Returned result /\
    trace st'
    = (trace st
       ++ [EvPost (token_request cfg)]
       ++ diagnostic_events m (PStr "Token Generated")
       ++ [EvGet (tracks_request tok);
           EvClient "s3" (AWS_REGION cfg);
           EvPutObject (Some b) (key m (today_date w))
             (json_dumps (Some 2%nat) recent_tracks) "application/json"]
       ++ diagnostic_events m result)%list.
Proof.
  intros Hrun.
  destruct (successful_run_inv _ _ _ _ _ _ _ _ Hrun)
    as (b & n & Hb & _ & Hn & Hres & _ & _).
  destruct Hrun as (tok & st1 & st2 & result & Htok & Hd & Hfetch & Hrun & H200).
  destruct (get_spotify_token_token_inv _ _ _ _ _ _ Htok Hd)
    as (resp & auth_data & Hpost & _ & Hjson & Hv & Hst1).
  pose proof (get_recent_tracks_state w tok st1) as Hst2.
  rewrite Hfetch in Hst2. simpl in Hst2.
  destruct (save_to_s3 m cfg w recent_tracks (today_date w) st2) as [[r|e] st3] eqn:Hsave.
  - destruct (save_to_s3_returned _ _ _ _ _ _ _ _ Hsave) as (b' & Hb' & _ & -> & ->).
    rewrite Hb in Hb'. injection Hb' as <-.
    rewrite (lambda_handler_saved _ _ _ _ _ _ _ _ _ _ _ _ Htok Hd Hfetch Hsave), Hn in Hrun.
    injection Hrun as Hresult <-.
    exists resp, auth_data, tok, b, (PDict result).
    rewrite Hres, <- Hresult. repeat split; try done.
    subst st2 st1. simpl. unfold store_events. by rewrite <- !app_assoc.
  - rewrite (lambda_handler_save_raised _ _ _ _ _ _ _ _ _ _ _ _ Htok Hd Hfetch Hsave) in Hrun.
    injection Hrun as <- _. discriminate.
Qed.

Lemma X14_witness :
  exists resp auth_data tok b result,
    requests_post w_ok (token_request cfg0) = Returned resp /\
    json resp = Returned (PDict auth_data) /\
    dict_lookup "access_token" auth_data = Some tok /\
    RAW_S3_BUCKET_NAME cfg0 = Some b /\
    fst (lambda_handler lambda_function cfg0 w_ok PNone PNone st0) = Returned result /\
    trace (snd (lambda_handler lambda_function cfg0 w_ok PNone PNone st0))
    = (trace st0
       ++ [EvPost (token_request cfg0)]
       ++ diagnostic_events lambda_function (PStr "Token Generated")
       ++ [EvGet (tracks_request tok);
           EvClient "s3" (AWS_REGION cfg0);
           EvPutObject (Some b) (key lambda_function (today_date w_ok))
             (json_dumps (Some 2%nat) payload0) "application/json"]
       ++ diagnostic_events lambda_function result)%list.
Proof.
  apply (X14_successful_run_trace lambda_function cfg0 w_ok PNone PNone st0 payload0
           (snd (lambda_handler lambda_function cfg0 w_ok PNone PNone st0))).
  sample_run lambda_function w_ok st0 (PStr "BQDtoken").
Defined.

(** X15.  Whatever happens, a run of the handler never creates or removes a
    bucket, and it leaves the objects as they were or with exactly one
    object put, under the configured bucket and today's key: it never
    deletes an object and never writes under another key. *)
Theorem X15_handler_writes_at_most_one_object m cfg w event context st :
  buckets (snd (lambda_handler m cfg w event context st)) = buckets st /\
  (objects (snd (lambda_handler m cfg w event context st)) = objects st \/
   exists b payload,
     RAW_S3_BUCKET_NAME cfg = Some b /\
     objects (snd (lambda_handler m cfg w event context st))
     = <[(b, key m (today_date w)) := stored payload]> (objects st)).
Proof.
  destruct (get_spotify_token_state m cfg w st) as (evs & Hst1 & _).
  destruct (get_spotify_token m cfg w st) as [[tok|e] st1] eqn:Htok; simpl in Hst1.
  - destruct (isinstance_dict tok) eqn:Hd.
    + destruct tok as [| | | | | |d]; try discriminate.
      rewrite (lambda_handler_token_dict m cfg w event context st _ _ Htok).
      subst st1. simpl. by split; [|left].
    + pose proof (get_recent_tracks_state w tok st1) as Hst2.
      destruct (get_recent_tracks w tok st1) as [[recent_tracks|e] st2] eqn:Hfetch;
        simpl in Hst2.
      * destruct (save_to_s3 m cfg w recent_tracks (today_date w) st2)
          as [[r|e] st3] eqn:Hsave.
        -- rewrite (lambda_handler_saved _ _ _ _ _ _ _ _ _ _ _ _ Htok Hd Hfetch Hsave).
           destruct (save_to_s3_returned _ _ _ _ _ _ _ _ Hsave) as (b & Hb & _ & _ & ->).
           subst st2 st1.
           destruct (count_items recent_tracks); simpl;
             (split; [done|right; by exists b, recent_tracks]).
        -- rewrite (lambda_handler_save_raised _ _ _ _ _ _ _ _ _ _ _ _
                      Htok Hd Hfetch Hsave).
           destruct (save_to_s3_raised _ _ _ _ _ _ _ _ Hsave) as [Hobj Hbuck].
           simpl. rewrite Hobj, Hbuck. subst st2 st1. by split; [|left].
      * rewrite (lambda_handler_fetch_raised _ _ _ _ _ _ _ _ _ _ Htok Hd Hfetch).
        subst st2 st1. by split; [|left].
  - rewrite (lambda_handler_token_raised _ _ _ _ _ _ _ _ Htok).
    subst st1. by split; [|left].
Qed.

(** ** Module-level configuration *)

(** X16.  Unset credentials are not detected.  When the environment has
    neither [SPOTIFY_CLIENT_ID] nor [SPOTIFY_CLIENT_SECRET], the f-string
    formats both as [None] and the token step still sends its POST, with the
    Base64 of [None:None] as Basic credentials and the refresh token as the
    environment has it (or none). *)
Theorem X16_unset_credentials_are_sent m environ w st :
  environ !! "SPOTIFY_CLIENT_ID" = None ->
  environ !! "SPOTIFY_CLIENT_SECRET" = None ->
  exists prints,
    snd (get_spotify_token m (load_config environ) w st)
    = extend st
        (EvPost {| post_url := "https://accounts.spotify.com/api/token";
                   post_authorization := "Basic Tm9uZTpOb25l";
                   post_data := [("grant_type", Some "refresh_token");
                                 ("refresh_token", environ !! "SPOTIFY_REFRESH_TOKEN")];
                   post_timeout := 10 |}
         :: prints).
Proof.
  intros Hid Hsecret.
  destruct (get_spotify_token_state m (load_config environ) w st) as (evs & Hst & _).
  exists evs. rewrite Hst. unfold token_request, load_config, os_getenv. simpl.
  by rewrite Hid, Hsecret.
Qed.

Lemma X16_witness :
  exists prints,
    snd (get_spotify_token lambda_function (load_config ∅) w_401 st0)
    = extend st0
        (EvPost {| post_url := "https://accounts.spotify.com/api/token";
                   post_authorization := "Basic Tm9uZTpOb25l";
                   post_data := [("grant_type", Some "refresh_token");
                                 ("refresh_token",
                                  (∅ : gmap string string) !! "SPOTIFY_REFRESH_TOKEN")];
                   post_timeout := 10 |}
         :: prints).
Proof.
  apply (X16_unset_credentials_are_sent lambda_function ∅ w_401 st0); reflexivity.
Defined.

(** ** The serialization *)





















(** The serialization of a value with Japanese text and an emoji. *)
Example json_dumps_u_sample :
  json_dumps_u None upayload
  = "{" ++ quoted "name" ++ ": "
    ++ quoted "\u65e5\u672c \ud83d\ude00\u00f7" ++ ", "
    ++ quoted "dur" ++ ": 233713}".
Proof. reflexivity. Qed.

(** ** The partition key *)

Lemma civil_from_days_bounds days :
  match civil_from_days days with
  | (y, m, d) =>
      1 <= m <= 12 /\ 1 <= d <= 31 /\
      (0 <= days <= 2932896 -> 1970 <= y <= 9999)
  end.
Proof.
  unfold civil_from_days. cbv zeta.
  set (z := days + 719468). set (era := z / 146097). set (doe := z - era * 146097).
  assert (Hdoe : 0 <= doe <= 146096) by (unfold doe, era; Z.div_mod_to_equations; lia).
  assert (Hera : 0 <= days <= 2932896 ->
                 (era = 4 /\ 135080 <= doe) \/ 5 <= era <= 23 \/ (era = 24 /\ doe <= 146036)).
  { intros ?. unfold doe, era, z. Z.div_mod_to_equations. lia. }
  clearbody doe era. clear z.
  set (yoe := (doe - doe / 1460 + doe / 36524 - doe / 146096) / 365).
  assert (Hyoe : 0 <= yoe <= 399) by (unfold yoe; Z.div_mod_to_equations; lia).
  set (doy := doe - (365 * yoe + yoe / 4 - yoe / 100)).
  assert (Hdoy : 0 <= doy <= 365) by (unfold doy, yoe; Z.div_mod_to_equations; lia).
  set (mp := (5 * doy + 2) / 153).
  assert (Hmp : 0 <= mp <= 11) by (unfold mp; Z.div_mod_to_equations; lia).
  split; [destruct (Z.ltb_spec mp 10); lia|].
  split; [unfold mp; Z.div_mod_to_equations; lia|].
  intros Hdays. specialize (Hera Hdays).
  assert (Hm : (if (if mp <? 10 then mp + 3 else mp - 9) <=? 2 then 1 else 0)
               = (if 306 <=? doy then 1 else 0)).
  { destruct (Z.ltb_spec mp 10); destruct (Z.leb_spec 306 doy);
      [destruct (Z.leb_spec (mp + 3) 2)|destruct (Z.leb_spec (mp + 3) 2)
      |destruct (Z.leb_spec (mp - 9) 2)|destruct (Z.leb_spec (mp - 9) 2)];
      try reflexivity; exfalso; unfold mp in *; Z.div_mod_to_equations; lia. }
  rewrite Hm. clear Hm Hmp. clearbody mp.
  destruct (Z.leb_spec 306 doy); unfold doy, yoe in *; Z.div_mod_to_equations; lia.
Qed.

(** [days_from_civil] undoes [civil_from_days]: no two days have the same
    date. *)
Lemma days_from_civil_of_days days :
  days_from_civil (civil_from_days days) = days.
Proof.
  unfold civil_from_days, days_from_civil. cbv zeta.
  set (z := days + 719468). set (era := z / 146097). set (doe := z - era * 146097).
  assert (Hdoe : 0 <= doe <= 146096) by (unfold doe, era; Z.div_mod_to_equations; lia).
  assert (Hz : days = era * 146097 + doe - 719468) by (unfold doe, z; lia).
  clearbody doe era. clear z.
  set (yoe := (doe - doe / 1460 + doe / 36524 - doe / 146096) / 365).
  assert (Hyoe : 0 <= yoe <= 399) by (unfold yoe; Z.div_mod_to_equations; lia).
  set (doy := doe - (365 * yoe + yoe / 4 - yoe / 100)).
  assert (Hdoy : 0 <= doy <= 365) by (unfold doy, yoe; Z.div_mod_to_equations; lia).
  assert (Hdoe' : doe = yoe * 365 + yoe / 4 - yoe / 100 + doy) by (unfold doy; lia).
  clearbody doy yoe.
  set (mp := (5 * doy + 2) / 153).
  assert (Hmp : 0 <= mp <= 11) by (unfold mp; Z.div_mod_to_equations; lia).
  set (m := if mp <? 10 then mp + 3 else mp - 9).
  assert (Hm : (if 2 <? m then m - 3 else m + 9) = mp).
  { unfold m. destruct (Z.ltb_spec mp 10).
    - destruct (Z.ltb_spec 2 (mp + 3)); lia.
    - destruct (Z.ltb_spec 2 (mp - 9)); lia. }
  rewrite Hm.
  replace (yoe + era * 400 + (if m <=? 2 then 1 else 0) - (if m <=? 2 then 1 else 0))
    with (yoe + era * 400) by lia.
  assert (Hq : (yoe + era * 400) / 400 = era) by (Z.div_mod_to_equations; lia).
  rewrite Hq. replace (yoe + era * 400 - era * 400) with yoe by lia. lia.
Qed.

Lemma civil_from_days_inj days days' :
  civil_from_days days = civil_from_days days' -> days = days'.
Proof.
  intros H. by rewrite <- (days_from_civil_of_days days), H, days_from_civil_of_days.
Qed.

(** Digits and zero-padded numbers determine the number. *)
Lemma digit_inj a b : digit a = digit b -> a mod 10 = b mod 10.
Proof.
  unfold digit. intros H.
  apply (f_equal N_of_ascii) in H.
  rewrite !N_ascii_embedding in H
    by (pose proof (Z.mod_pos_bound a 10); pose proof (Z.mod_pos_bound b 10); lia).
  pose proof (Z.mod_pos_bound a 10). pose proof (Z.mod_pos_bound b 10). lia.
Qed.

Lemma zfill2_inj a b : 0 <= a < 100 -> 0 <= b < 100 -> zfill2 a = zfill2 b -> a = b.
Proof.
  unfold zfill2. intros Ha Hb [= H1%digit_inj H0%digit_inj].
  Z.div_mod_to_equations. lia.
Qed.

Lemma strftime_Ymd_inj y m d y' m' d' :
  0 <= y < 10000 -> 0 <= m < 100 -> 0 <= d < 100 ->
  0 <= y' < 10000 -> 0 <= m' < 100 -> 0 <= d' < 100 ->
  strftime_Ymd (y, m, d) = strftime_Ymd (y', m', d') -> (y, m, d) = (y', m', d').
Proof.
  unfold strftime_Ymd, zfill4, zfill2. simpl.
  intros Hy Hm Hd Hy' Hm' Hd'
    [= H3%digit_inj H2%digit_inj H1%digit_inj H0%digit_inj
       M1%digit_inj M0%digit_inj D1%digit_inj D0%digit_inj].
  assert (y = y') by (Z.div_mod_to_equations; lia).
  assert (m = m') by (Z.div_mod_to_equations; lia).
  assert (d = d') by (Z.div_mod_to_equations; lia).
  congruence.
Qed.

Lemma local_day_in_range w :
  clock_in_range w -> 0 <= local_day w <= 2932896.
Proof. unfold clock_in_range, local_day. intros H. Z.div_mod_to_equations. lia. Qed.

Lemma today_date_inj w1 w2 :
  clock_in_range w1 -> clock_in_range w2 ->
  today_date w1 = today_date w2 -> local_day w1 = local_day w2.
Proof.
  intros H1%local_day_in_range H2%local_day_in_range.
  unfold today_date, datetime_now. fold (local_day w1) (local_day w2).
  pose proof (civil_from_days_bounds (local_day w1)) as B1.
  pose proof (civil_from_days_bounds (local_day w2)) as B2.
  destruct (civil_from_days (local_day w1)) as [[y1 m1] d1] eqn:E1.
  destruct (civil_from_days (local_day w2)) as [[y2 m2] d2] eqn:E2.
  destruct B1 as (Hm1 & Hd1 & Hy1). destruct B2 as (Hm2 & Hd2 & Hy2).
  specialize (Hy1 H1). specialize (Hy2 H2).
  intros Heq%strftime_Ymd_inj; try lia.
  apply civil_from_days_inj. by rewrite E1, E2.
Qed.

(** X18.  One key per local day.  On clocks that [datetime.now()] can read
    (years 1970 to 9999), two runs compute the same partition key, and so
    the same storage key, exactly when they fall on the same day of the
    process's local clock, in both modules. *)
Theorem X18_one_key_per_local_day m w1 w2 :
  clock_in_range w1 -> clock_in_range w2 ->
  (today_date w1 = today_date w2 <-> local_day w1 = local_day w2) /\
  (key m (today_date w1) = key m (today_date w2) <-> local_day w1 = local_day w2).
Proof.
  intros H1 H2.
  assert (Hsame : local_day w1 = local_day w2 -> today_date w1 = today_date w2).
  { unfold today_date, datetime_now. fold (local_day w1) (local_day w2). by intros ->. }
  split; split.
  - by apply today_date_inj.
  - exact Hsame.
  - intros Hk%key_inj. by apply today_date_inj.
  - intros Hd. by rewrite (Hsame Hd).
Qed.

Lemma X18_witness :
  (today_date w_ok = today_date w_next_day <-> local_day w_ok = local_day w_next_day) /\
  (key lambda_function (today_date w_ok) = key lambda_function (today_date w_next_day)
   <-> local_day w_ok = local_day w_next_day).
Proof.
  apply (X18_one_key_per_local_day lambda_function w_ok w_next_day);
    unfold clock_in_range; simpl; lia.
Defined.

(** X19.  On such a clock the partition key is a calendar date written
    with ten characters: a year from 1970 to 9999 in four digits, a month
    from 01 to 12 and a day from 01 to 31 in two digits each, with a dash
    after the year and after the month. *)
Theorem X19_partition_key_shape w :
  clock_in_range w ->
  exists y m d,
    datetime_now w = (y, m, d) /\
    1970 <= y <= 9999 /\ 1 <= m <= 12 /\ 1 <= d <= 31 /\
    today_date w = zfill4 y ++ "-" ++ zfill2 m ++ "-" ++ zfill2 d /\
    String.length (today_date w) = 10%nat /\
    String.get 4 (today_date w) = Some "-"%char /\
    String.get 7 (today_date w) = Some "-"%char.
Proof.
  intros H%local_day_in_range.
  unfold today_date, datetime_now. fold (local_day w).
  pose proof (civil_from_days_bounds (local_day w)) as B.
  destruct (civil_from_days (local_day w)) as [[y m] d].
  destruct B as (Hm & Hd & Hy). specialize (Hy H).
  exists y, m, d. by repeat split; try lia.
Qed.

Lemma X19_witness :
  exists y m d,
    datetime_now w_west = (y, m, d) /\
    1970 <= y <= 9999 /\ 1 <= m <= 12 /\ 1 <= d <= 31 /\
    today_date w_west = zfill4 y ++ "-" ++ zfill2 m ++ "-" ++ zfill2 d /\
    String.length (today_date w_west) = 10%nat /\
    String.get 4 (today_date w_west) = Some "-"%char /\
    String.get 7 (today_date w_west) = Some "-"%char.
Proof.
  apply (X19_partition_key_shape w_west). unfold clock_in_range. simpl. lia.
Defined.
